(** * DataTableService (nocodb, [services/data-table.service.ts])

    A shallow embedding of the table-rows service of nocodb and of the
    collaborators it calls, with the properties of its specification.

    The service is asynchronous TypeScript: every collaborator call may
    read or change the backing store and may throw.  It is embedded in a
    state-and-exception monad over an abstract world [W]; the collaborators
    ([Model], [View], [Base], [NcConnectionMgrv2], [BaseModelSqlv2],
    [DatasService], [JSON]) form the interface [Collaborators]. *)

From Stdlib Require Import ZArith Bool Ascii String Lia.
From stdpp Require Import base option list strings gmap pretty sorting.

Set Warnings "-register-all".

Local Open Scope Z_scope.
Local Open Scope string_scope.

(** ** JavaScript values *)

Module JS.

(** The values that travel through the service ([any] in the source). *)
Inductive value : Type :=
| VUndefined
| VNull
| VBool (b : bool)
| VNum (n : Z)
| VStr (s : string)
| VArr (items : list value)
| VObj (props : list (string * value)).

(** A plain object: properties in insertion order. *)
Definition obj : Type := list (string * value).

(** [Array.isArray] *)
Definition isArray (v : value) : bool :=
  match v with VArr _ => true | _ => false end.

(** A single (non-array, non-null) object. *)
Definition isObject (v : value) : bool :=
  match v with VObj _ => true | _ => false end.

(** Truthiness of an optional string: [undefined] and [''] are falsy. *)
Definition truthy (s : option string) : bool :=
  match s with
  | Some s => negb (String.eqb s "")
  | None => false
  end.

(** [o[k]] *)
Fixpoint get (k : string) (o : obj) : value :=
  match o with
  | [] => VUndefined
  | (k', v) :: o' => if String.eqb k k' then v else get k o'
  end.

(** [k in o] for own properties *)
Definition has (k : string) (o : obj) : bool :=
  existsb (fun kv => String.eqb k kv.1) o.

(** [o[k] = v]: an existing property keeps its place, a new one goes last. *)
Fixpoint set (k : string) (v : value) (o : obj) : obj :=
  match o with
  | [] => [(k, v)]
  | (k', v') :: o' =>
      if String.eqb k k' then (k, v) :: o' else (k', v') :: set k v o'
  end.

(** [Object.keys] *)
Definition keys (o : obj) : list string := fst <$> o.

(** [{ ...o }]: a shallow copy. *)
Definition spread (o : obj) : obj := o.

(** [res[i]] on an array of objects: [undefined] out of range. *)
Definition index (res : list obj) (i : nat) : value :=
  match res !! i with
  | Some o => VObj o
  | None => VUndefined
  end.

(** Decimal rendering of an integer, as [String(n)] gives it. *)
Definition showZ (n : Z) : string := pretty n.

(** [String(v)], the conversion [JSON.parse] applies to its argument. *)
Fixpoint toString (v : value) : string :=
  match v with
  | VUndefined => "undefined"
  | VNull => "null"
  | VBool true => "true"
  | VBool false => "false"
  | VNum n => showZ n
  | VStr s => s
  | VArr items =>
      let item v :=
        match v with
        | VUndefined | VNull => ""
        | _ => toString v
        end in
      String.concat "," (map item items)
  | VObj _ => "[object Object]"
  end.

End JS.
Import JS.

(** ** Errors and the service monad *)

(** The errors a request can end with.  [NotFound] and
    [UnprocessableEntity] are the two [NcError] helpers the service calls;
    [JsError] is a plain [new Error(msg)]; [ConnectivityFailure] is what the
    connection manager raises when the backing store is unreachable. *)
Inductive NcErr : Type :=
| NotFound (msg : string)
| UnprocessableEntity (msg : string)
| JsError (msg : string)
| ConnectivityFailure (msg : string).

Inductive outcome (A : Type) : Type :=
| Ok (a : A)
| Throw (e : NcErr).
Arguments Ok {A} a.
Arguments Throw {A} e.

(** An asynchronous computation over the world [W]: it ends with a value or
    with a thrown error, and leaves a world behind in both cases. *)
Definition M (W A : Type) : Type := W -> outcome A * W.

Definition ret {W A} (a : A) : M W A := fun w => (Ok a, w).

Definition throw {W A} (e : NcErr) : M W A := fun w => (Throw e, w).

Definition bind {W A B} (m : M W A) (k : A -> M W B) : M W B :=
  fun w =>
    match m w with
    | (Ok a, w') => k a w'
    | (Throw e, w') => (Throw e, w')
    end.

Declare Scope async_scope.
Delimit Scope async_scope with async.
Notation "'await' x <- m ;; k" := (bind m (fun x => k))
  (at level 10, x name, m at level 99, k at level 200, only parsing)
  : async_scope.
Notation "'await' ' pat <- m ;; k" :=
  (bind m (fun x => match x with pat => k end))
  (at level 10, pat pattern, m at level 99, k at level 200, only parsing)
  : async_scope.
Local Open Scope async_scope.

(** Modelled from the spec: the helper [NcError] of [helpers/catchError] is
    not part of the sources at hand.  Section 7 makes `NotFound` and the
    unprocessable-request error terminal failures of the request, so both
    helpers throw. *)
Module NcError.
Definition notFound {W A} (msg : string) : M W A := throw (NotFound msg).
Definition unprocessableEntity {W A} (msg : string) : M W A :=
  throw (UnprocessableEntity msg).
End NcError.

(** ** Metadata *)

(** A table definition ([Model]), as far as the service reads it. *)
Record Model : Type := {
  model_id : string;
  base_id : string;
  project_id : string
}.

(** A saved view: its table reference may be absent; the persisted filter
    (by its meaning on a row) and the hidden-field set are what the list
    pipeline overlays on a request. *)
Record View : Type := {
  view_id : string;
  fk_model_id : option string;
  view_filter : obj -> bool;
  view_hidden : list string
}.

(** A base: the connection a table lives on. *)
Record Base : Type := {
  base_ident : string;
  base_reachable : bool
}.

(** The handle [Model.getBaseModelSQL] builds from [{ id, viewId, dbDriver }]. *)
Record BaseModelSqlv2 (Driver : Type) : Type := {
  bm_id : string;
  bm_viewId : option string;
  bm_dbDriver : Driver
}.
Arguments bm_id {Driver} _.
Arguments bm_viewId {Driver} _.
Arguments bm_dbDriver {Driver} _.

(** The page metadata of a list response. *)
Record PageInfo : Type := {
  totalRows : Z;
  page : Z;
  pageSize : Z;
  isFirstPage : bool;
  isLastPage : bool
}.

(** [{ list, pageInfo }] *)
Record PagedResponse : Type := {
  list_ : list obj;
  pageInfo : PageInfo
}.

(** ** Collaborators *)

(** What the service calls outside itself.  Each call runs in the service
    monad: it may throw and may change the world.  The result types follow
    the response shapes of the interface (a row and a primary-key echo are
    objects, a bulk result is an array of objects, a count is a number).
    [JSON_parse] is the builtin: [None] stands for its [SyntaxError]. *)
Class Collaborators (W : Type) : Type := {
  Driver : Type;
  Model_get : string -> M W (option Model);
  View_get : string -> M W (option View);
  Base_get : string -> M W (option Base);
  NcConnectionMgrv2_get : option Base -> M W Driver;
  Model_getBaseModelSQL :
    string -> option string -> Driver -> M W (BaseModelSqlv2 Driver);
  readByPk : BaseModelSqlv2 Driver -> string -> bool -> obj -> M W (option obj);
  insert : BaseModelSqlv2 Driver -> value -> value -> value -> M W obj;
  bulkInsert : BaseModelSqlv2 Driver -> list value -> value -> M W (list obj);
  bulkUpdate : BaseModelSqlv2 Driver -> list value -> value -> M W (list obj);
  count : BaseModelSqlv2 Driver -> obj -> M W Z;
  getDataList : Model -> option View -> obj -> M W PagedResponse;
  JSON_parse : string -> option value
}.

(** The request parameter object; each operation reads the fields its
    signature names. *)
Record Param : Type := {
  projectId : option string;
  modelId : string;
  viewId : option string;
  rowId : string;
  query : obj;
  body : value;
  cookie : value
}.

(** ** The service *)

Section DataTableService.

Context {W : Type} `{C : Collaborators W}.

Definition getModelAndView (param : Param) : M W (Model * option View) :=
  await m <- Model_get (modelId param) ;;
  await model <-
    match m with
    | Some model => ret model
    | None => NcError.notFound "Model not found"
    end ;;
  await _ <-
    (if truthy (projectId param)
        && negb (bool_decide (Some (project_id model) = projectId param))
     then throw (JsError "Model not belong to project")
     else ret tt) ;;
  await view <-
    (if truthy (viewId param) then
       await v <- View_get (default "" (viewId param)) ;;
       match v with
       | None => NcError.unprocessableEntity "View not belong to model"
       | Some view =>
           if truthy (fk_model_id view)
              && negb (bool_decide (fk_model_id view = Some (modelId param)))
           then NcError.unprocessableEntity "View not belong to model"
           else ret (Some view)
       end
     else ret None) ;;
  ret (model, view).

Definition dataList (param : Param) : M W PagedResponse :=
  await '(model, view) <- getModelAndView param ;;
  getDataList model view (query param).

Definition dataRead (param : Param) : M W obj :=
  await '(model, view) <- getModelAndView param ;;
  await base <- Base_get (base_id model) ;;
  await dbDriver <- NcConnectionMgrv2_get base ;;
  await baseModel <-
    Model_getBaseModelSQL (model_id model) (view_id <$> view) dbDriver ;;
  await row <- readByPk baseModel (rowId param) false (query param) ;;
  match row with
  | None => NcError.notFound "Row not found"
  | Some row => ret row
  end.

Definition dataInsert (param : Param) : M W value :=
  await '(model, view) <- getModelAndView param ;;
  await base <- Base_get (base_id model) ;;
  await dbDriver <- NcConnectionMgrv2_get base ;;
  await baseModel <-
    Model_getBaseModelSQL (model_id model) (view_id <$> view) dbDriver ;;
  match body param with
  | VArr records =>
      await res <- bulkInsert baseModel records (cookie param) ;;
      ret (VArr (VObj <$> res))
  | record =>
      await res <- insert baseModel record VNull (cookie param) ;;
      ret (VObj res)
  end.

(** [Array.isArray(param.body) ? param.body : [param.body]] *)
Definition asBatch (body : value) : list value :=
  match body with
  | VArr records => records
  | record => [record]
  end.

(** [Array.isArray(param.body) ? res : res[0]] *)
Definition unBatch (body : value) (res : list obj) : value :=
  if isArray body then VArr (VObj <$> res) else index res 0.

Definition dataUpdate (param : Param) : M W value :=
  await '(model, view) <- getModelAndView param ;;
  await base <- Base_get (base_id model) ;;
  await dbDriver <- NcConnectionMgrv2_get base ;;
  await baseModel <-
    Model_getBaseModelSQL (model_id model) (view_id <$> view) dbDriver ;;
  await res <- bulkUpdate baseModel (asBatch (body param)) (cookie param) ;;
  ret (unBatch (body param) res).

Definition dataDelete (param : Param) : M W value :=
  await '(model, view) <- getModelAndView param ;;
  await base <- Base_get (base_id model) ;;
  await dbDriver <- NcConnectionMgrv2_get base ;;
  await baseModel <-
    Model_getBaseModelSQL (model_id model) (view_id <$> view) dbDriver ;;
  await res <- bulkUpdate baseModel (asBatch (body param)) (cookie param) ;;
  ret (unBatch (body param) res).

(** [countArgs] after the [try { ... } catch (e) {}] block. *)
Definition countArgs (query : obj) : obj :=
  let countArgs := spread query in
  match JSON_parse (toString (get "filterArrJson" countArgs)) with
  | Some filterArr => set "filterArr" filterArr countArgs
  | None => countArgs
  end.

Definition dataCount (param : Param) : M W obj :=
  await '(model, view) <- getModelAndView param ;;
  await base <- Base_get (base_id model) ;;
  await dbDriver <- NcConnectionMgrv2_get base ;;
  await baseModel <-
    Model_getBaseModelSQL (model_id model) (view_id <$> view) dbDriver ;;
  await count <- count baseModel (countArgs (query param)) ;;
  ret [("count", VNum count)].

(** The three steps every row operation takes after [getModelAndView], as
    one computation: [Base.get], [NcConnectionMgrv2.get] and
    [Model.getBaseModelSQL]. *)
Definition getBaseModel (model : Model) (view : option View)
  : M W (BaseModelSqlv2 Driver) :=
  await base <- Base_get (base_id model) ;;
  await dbDriver <- NcConnectionMgrv2_get base ;;
  Model_getBaseModelSQL (model_id model) (view_id <$> view) dbDriver.

End DataTableService.

(** The six operations of the service, by name. *)
Inductive operation : Type :=
| OpList | OpRead | OpCount | OpInsert | OpUpdate | OpDelete.

Inductive response : Type :=
| ListResponse (r : PagedResponse)
| RowResponse (row : obj)
| CountResponse (o : obj)
| MutationResponse (v : value).

(** The service call an operation stands for. *)
Definition handle {W : Type} `{C : Collaborators W}
  (op : operation) (param : Param) : M W response :=
  match op with
  | OpList => await r <- dataList param ;; ret (ListResponse r)
  | OpRead => await r <- dataRead param ;; ret (RowResponse r)
  | OpCount => await r <- dataCount param ;; ret (CountResponse r)
  | OpInsert => await r <- dataInsert param ;; ret (MutationResponse r)
  | OpUpdate => await r <- dataUpdate param ;; ret (MutationResponse r)
  | OpDelete => await r <- dataDelete param ;; ret (MutationResponse r)
  end.

(** The project check of [getModelAndView] lets the request through. *)
Definition project_ok (param : Param) (model : Model) : Prop :=
  truthy (projectId param) = false \/
  projectId param = Some (project_id model).

(** ** The single-record path, as the specification words it *)

Definition with_body (b : value) (param : Param) : Param :=
  {| projectId := projectId param; modelId := modelId param;
     viewId := viewId param; rowId := rowId param; query := query param;
     body := b; cookie := cookie param |}.

(** [r[0]] on a response value. *)
Definition first_of (r : value) : value :=
  match r with
  | VArr (x :: _) => x
  | _ => VUndefined
  end.

(** [bulk([body])[0]]: run a bulk operation on the one-element batch and
    take the first element of what it returns. *)
Definition single_via_bulk {W : Type} (bulk : Param -> M W value)
  (param : Param) : M W value :=
  await res <- bulk (with_body (VArr [body param]) param) ;;
  ret (first_of res).

(** [bulkUpdate([body])[0]], in the words of the specification: with the
    table and the view resolved and the base model obtained, the store's
    bulk update runs on the one-element batch [[body]] and the answer is
    the first element of what it returns. *)
Definition first_of_bulkUpdate {W : Type} `{C : Collaborators W}
  (param : Param) : M W value :=
  await '(model, view) <- getModelAndView param ;;
  await baseModel <- getBaseModel model view ;;
  await res <- bulkUpdate baseModel [body param] (cookie param) ;;
  ret (index res 0).

(** The contract of a bulk update (section 4.5): it returns one echo per
    input record. *)
Definition echoes_each_record {W : Type} `{C : Collaborators W} : Prop :=
  forall bm records cookie w res w',
    bulkUpdate bm records cookie w = (Ok res, w') ->
    length res = length records.

(** ** Text helpers: numerals and JSON *)

Module Text.

Definition is_digit (c : ascii) : bool :=
  let n := Ascii.nat_of_ascii c in (48 <=? n)%nat && (n <=? 57)%nat.

Definition digit_val (c : ascii) : Z := Z.of_nat (Ascii.nat_of_ascii c) - 48.

Definition is_ws (c : ascii) : bool :=
  let n := Ascii.nat_of_ascii c in
  (n =? 32)%nat || (n =? 9)%nat || (n =? 10)%nat || (n =? 13)%nat.

Fixpoint skip_ws (s : string) : string :=
  match s with
  | String c r => if is_ws c then skip_ws r else s
  | EmptyString => s
  end.

(** The digits at the head of [s], read onto [acc], and what follows. *)
Fixpoint digits (acc : Z) (s : string) : Z * string :=
  match s with
  | String c r => if is_digit c then digits (10 * acc + digit_val c) r else (acc, s)
  | EmptyString => (acc, s)
  end.

(** An integer numeral at the head of [s]: an optional minus sign and at
    least one digit. *)
Definition numeral (s : string) : option (Z * string) :=
  match s with
  | String c r =>
      if is_digit c then Some (digits 0 s)
      else if Ascii.eqb c "-" then
        match r with
        | String d _ =>
            if is_digit d then
              let '(n, rest) := digits 0 r in Some (- n, rest)
            else None
        | EmptyString => None
        end
      else None
  | EmptyString => None
  end.

(** A string that is an integer numeral and nothing else. *)
Definition parse_int (s : string) : option Z :=
  match numeral s with
  | Some (n, EmptyString) => Some n
  | _ => None
  end.

(** [strip p s]: [s] without its prefix [p], if it has it. *)
Fixpoint strip (p s : string) : option string :=
  match p, s with
  | EmptyString, _ => Some s
  | String a p', String b s' => if Ascii.eqb a b then strip p' s' else None
  | String _ _, EmptyString => None
  end.

Definition dquote : ascii := "034"%char.
Definition backslash : ascii := "092"%char.

(** [s] starts with the character [c]: what follows it. *)
Definition after (c : ascii) (s : string) : option string :=
  match s with
  | String c' r => if Ascii.eqb c c' then Some r else None
  | EmptyString => None
  end.

(** The character an escape sequence [\c] stands for. *)
Definition unescape (c : ascii) : option ascii :=
  if Ascii.eqb c "n" then Some "010"%char
  else if Ascii.eqb c "t" then Some "009"%char
  else if Ascii.eqb c "r" then Some "013"%char
  else if Ascii.eqb c "b" then Some "008"%char
  else if Ascii.eqb c "f" then Some "012"%char
  else if Ascii.eqb c dquote || Ascii.eqb c backslash || Ascii.eqb c "/"
  then Some c
  else None.

(** The body of a JSON string literal, after the opening quote. *)
Fixpoint string_body (s : string) : option (string * string) :=
  match s with
  | EmptyString => None
  | String c r =>
      if Ascii.eqb c dquote then Some (EmptyString, r)
      else if Ascii.eqb c backslash then
        match r with
        | String e r' =>
            match unescape e, string_body r' with
            | Some e', Some (t, rest) => Some (String e' t, rest)
            | _, _ => None
            end
        | EmptyString => None
        end
      else
        match string_body r with
        | Some (t, rest) => Some (String c t, rest)
        | None => None
        end
  end.

(** A literal [null], [true] or [false] or an integer numeral. *)
Definition json_atom (t : string) : option (value * string) :=
  match strip "null" t, strip "true" t, strip "false" t with
  | Some r, _, _ => Some (VNull, r)
  | _, Some r, _ => Some (VBool true, r)
  | _, _, Some r => Some (VBool false, r)
  | _, _, _ =>
      match numeral t with
      | Some (n, r) => Some (VNum n, r)
      | None => None
      end
  end.

(** One JSON value at the head of [s].  [fuel] bounds the nesting depth and
    the number of elements of an array or object; the length of the text is
    always enough.  Numerals are the integer ones: a fraction or an
    exponent has no counterpart among [value]s and is not accepted. *)
Fixpoint json_value (fuel : nat) (s : string) : option (value * string) :=
  match fuel with
  | O => None
  | S fuel =>
      let fix items (n : nat) (acc : list value) (s : string)
        : option (list value * string) :=
        match n with
        | O => None
        | S n =>
            match json_value fuel s with
            | Some (v, r) =>
                match after "," (skip_ws r), after "]" (skip_ws r) with
                | Some r', _ => items n (v :: acc) r'
                | _, Some r' => Some (rev (v :: acc), r')
                | _, _ => None
                end
            | None => None
            end
        end in
      let fix members (n : nat) (acc : obj) (s : string)
        : option (obj * string) :=
        match n with
        | O => None
        | S n =>
            match after dquote (skip_ws s) with
            | Some r =>
                match string_body r with
                | Some (k, r1) =>
                    match after ":" (skip_ws r1) with
                    | Some r2 =>
                        match json_value fuel r2 with
                        | Some (v, r3) =>
                            match after "," (skip_ws r3),
                                  after "}" (skip_ws r3) with
                            | Some r4, _ => members n (set k v acc) r4
                            | _, Some r4 => Some (set k v acc, r4)
                            | _, _ => None
                            end
                        | None => None
                        end
                    | None => None
                    end
                | None => None
                end
            | None => None
            end
        end in
      let t := skip_ws s in
      match after "[" t, after "{" t, after dquote t with
      | Some r, _, _ =>
          match after "]" (skip_ws r) with
          | Some r' => Some (VArr [], r')
          | None =>
              match items fuel [] r with
              | Some (vs, r') => Some (VArr vs, r')
              | None => None
              end
          end
      | _, Some r, _ =>
          match after "}" (skip_ws r) with
          | Some r' => Some (VObj [], r')
          | None =>
              match members fuel [] r with
              | Some (o, r') => Some (VObj o, r')
              | None => None
              end
          end
      | _, _, Some r =>
          match string_body r with
          | Some (t, r') => Some (VStr t, r')
          | None => None
          end
      | _, _, _ => json_atom t
      end
  end.

(** [JSON.parse]: one value, then nothing but white space. *)
Definition parse (s : string) : option value :=
  match json_value (S (String.length s)) s with
  | Some (v, r) =>
      match skip_ws r with
      | EmptyString => Some v
      | _ => None
      end
  | None => None
  end.

End Text.

(** ** An in-memory backing store *)

(** The metadata models, the connection manager, [BaseModelSqlv2] and
    [DatasService] are outside the sources at hand.  This module gives an
    instance of [Collaborators] modelled from sections 3, 4.3 to 4.6 and 6
    of the specification, and from the unit tests where they fix a detail
    (the text of an echoed key, the inserted row, the status of an unknown
    row). *)
Module Mem.

(** A table with its rows: column titles in table order, the title of the
    primary-key column, the rows in storage order and the next key. *)
Record Table : Type := {
  columns : list string;
  pk : string;
  rows : list obj;
  next_id : Z
}.

Record Config : Type := {
  limitDefault : Z;
  limitMax : Z;
  offsetDefault : Z
}.

Record World : Type := {
  models : gmap string Model;
  views : gmap string View;
  bases : gmap string Base;
  tables : gmap string Table
}.

Definition with_rows (rs : list obj) (n : Z) (t : Table) : Table :=
  {| columns := columns t; pk := pk t; rows := rs; next_id := n |}.

Definition put_table (id : string) (t : Table) (w : World) : World :=
  {| models := models w; views := views w; bases := bases w;
     tables := <[id := t]> (tables w) |}.

(** The text of a primary-key value; [None] when the record carries none. *)
Definition pk_key (v : value) : option string :=
  match v with
  | VNum n => Some (showZ n)
  | VStr s => if String.eqb s "" then None else Some s
  | _ => None
  end.

Definition has_key (pk k : string) (row : obj) : bool :=
  bool_decide (pk_key (get pk row) = Some k).

(** *** Row operations on one table *)

(** Modelled from the spec: [BaseModelSqlv2.insert] is missing.  The row
    stored for a new record has every column of the table, the primary key
    from the counter and a missing field as [null]; a record that names its
    own key is refused (unit test 'Create: invalid ID'). *)
Definition new_row (t : Table) (props : obj) : obj :=
  map (fun c =>
         if String.eqb c (pk t) then (c, VNum (next_id t))
         else (c, if has c props then get c props else VNull))
      (columns t).

Definition insert_row (t : Table) (record : value) : outcome (obj * Table) :=
  match record with
  | VObj props =>
      if has (pk t) props
      then Throw (UnprocessableEntity "Primary key must not be given")
      else
        let row := new_row t props in
        Ok (row, with_rows (rows t ++ [row]) (next_id t + 1) t)
  | _ => Throw (UnprocessableEntity "Record must be an object")
  end.

(** Modelled from the spec: [BaseModelSqlv2.bulkInsert] is missing.  All
    or nothing (section 4.5): the first invalid record ends the batch with
    no row written; the echoes come back in input order. *)
Fixpoint bulk_insert_rows (t : Table) (records : list value)
  : outcome (list obj * Table) :=
  match records with
  | [] => Ok ([], t)
  | record :: rest =>
      match insert_row t record with
      | Ok (row, t') =>
          match bulk_insert_rows t' rest with
          | Ok (echoes, t'') => Ok ([(pk t, get (pk t) row)] :: echoes, t'')
          | Throw e => Throw e
          end
      | Throw e => Throw e
      end
  end.

(** The fields of [props] overwrite those of the row, the key apart. *)
Definition update_row (pk : string) (props row : obj) : obj :=
  map (fun '(c, v) =>
         if has c props && negb (String.eqb c pk) then (c, get c props)
         else (c, v))
      row.

(** Modelled from the spec: [BaseModelSqlv2.bulkUpdate] is missing.
    Every record must carry a primary key and name a stored row, or the
    whole batch is refused (section 4.5, unit test 'Update: invalid ID');
    the echo of a record is its key alone, as text. *)
Fixpoint bulk_update_rows (pk : string) (records : list value)
  (rs : list obj) : outcome (list obj * list obj) :=
  match records with
  | [] => Ok ([], rs)
  | VObj props :: rest =>
      match pk_key (get pk props) with
      | Some k =>
          if existsb (has_key pk k) rs then
            let rs' :=
              map (fun r => if has_key pk k r then update_row pk props r else r)
                  rs in
            match bulk_update_rows pk rest rs' with
            | Ok (echoes, rs'') => Ok ([(pk, VStr k)] :: echoes, rs'')
            | Throw e => Throw e
            end
          else Throw (UnprocessableEntity "Record not found")
      | None => Throw (UnprocessableEntity "Primary key is missing")
      end
  | _ :: _ => Throw (UnprocessableEntity "Primary key is missing")
  end.

(** *** Pagination (section 4.6) *)

(** A numeric parameter: a number, or a string that is a numeral. *)
Definition numeric (v : value) : option Z :=
  match v with
  | VNum n => Some n
  | VStr s => Text.parse_int s
  | _ => None
  end.

(** A syntactically valid [limit] or [offset]: numeric and not negative. *)
Definition valid_bound (v : value) : option Z :=
  match numeric v with
  | Some n => if (0 <=? n)%Z then Some n else None
  | None => None
  end.

(** Modelled from the spec: the pagination calculator is missing.  An
    invalid [limit] becomes the configured default; the page size never
    exceeds the configured maximum (section 4.6). *)
Definition effective_limit (cfg : Config) (q : obj) : Z :=
  Z.min (default (limitDefault cfg) (valid_bound (get "limit" q)))
        (limitMax cfg).

(** Modelled from the spec: the pagination calculator is missing.  An
    invalid [offset] becomes the configured default (section 4.6). *)
Definition effective_offset (cfg : Config) (q : obj) : Z :=
  default (offsetDefault cfg) (valid_bound (get "offset" q)).

(** Modelled from the spec: the pagination calculator is missing.  An
    [offset] that is valid but exceeds the total is refused (section 4.6). *)
Definition offset_out_of_range (q : obj) (total : Z) : bool :=
  match valid_bound (get "offset" q) with
  | Some o => (total <? o)%Z
  | None => false
  end.

(** A [limit] or [offset] that is not numeric or is negative. *)
Definition invalid_bound (v : value) : Prop :=
  match numeric v with
  | Some n => n < 0
  | None => True
  end.

(** Modelled from the spec: the pagination calculator is missing.
    [page = floor(offset / pageSize) + 1], [isFirstPage = (offset == 0)],
    [isLastPage = (offset + pageSize >= totalRows)] (section 4.6). *)
Definition paginate (offset limit total : Z) : PageInfo :=
  {| totalRows := total;
     page := offset / limit + 1;
     pageSize := limit;
     isFirstPage := (offset =? 0)%Z;
     isLastPage := (total <=? offset + limit)%Z |}.

(** *** Projection (sections 4.3 and 4.4) *)

(** The [fields] of a request: one name or an array of names. *)
Definition requested_fields (q : obj) : option (list string) :=
  match get "fields" q with
  | VStr s => Some [s]
  | VArr items =>
      Some (omap (fun v => match v with VStr s => Some s | _ => None end) items)
  | _ => None
  end.

(** [fs.includes(c)] *)
Definition elem (c : string) (fs : list string) : bool :=
  existsb (String.eqb c) fs.

Definition hidden_of (view : option View) : list string :=
  match view with
  | Some v => view_hidden v
  | None => []
  end.

(** Modelled from the spec: the view overlay and the field projection
    resolver are missing.  The effective projection is the columns of the
    table, in table order, that the view does not hide and that the request,
    if it names fields, asks for (sections 4.3 and 4.4). *)
Definition effective_fields (t : Table) (view : option View) (q : obj)
  : list string :=
  List.filter
    (fun c =>
       negb (elem c (hidden_of view))
       && match requested_fields q with
          | Some fs => elem c fs
          | None => true
          end)
    (columns t).

Definition project (fields : list string) (row : obj) : obj :=
  map (fun c => (c, get c row)) fields.

(** *** The backend *)

Section Backend.

(** The configured bounds, the meaning of the request filter ([where]) on a
    row and the effective ordering are fixed by the deployment and by the
    filter and sort parsers. *)
Variable cfg : Config.
Variable where_filter : obj -> obj -> bool.
Variable order : option View -> obj -> list obj -> list obj.

(** Modelled from the spec: the view overlay is missing.  The rows a
    request sees are those on which the view's persisted filter and the
    request filter both hold (section 4.3). *)
Definition matching (view : option View) (q : obj) (t : Table) : list obj :=
  List.filter
    (fun r =>
       match view with
       | Some v => view_filter v r && where_filter q r
       | None => where_filter q r
       end)
    (rows t).

(** The number of rows a request matches. *)
Definition total_of (view : option View) (q : obj) (t : Table) : Z :=
  Z.of_nat (length (matching view q t)).

Definition table_of (id : string) : M World Table :=
  fun w =>
    match tables w !! id with
    | Some t => (Ok t, w)
    | None => (Throw (NotFound "Table not found"), w)
    end.

Definition mem_Model_get (id : string) : M World (option Model) :=
  fun w => (Ok (models w !! id), w).

Definition mem_View_get (id : string) : M World (option View) :=
  fun w => (Ok (views w !! id), w).

Definition mem_Base_get (id : string) : M World (option Base) :=
  fun w => (Ok (bases w !! id), w).

Definition mem_connect (base : option Base) : M World Base :=
  match base with
  | Some b =>
      if base_reachable b then ret b
      else throw (ConnectivityFailure "Backing store unreachable")
  | None => throw (JsError "Base is undefined")
  end.

Definition mem_getBaseModelSQL (id : string) (viewId : option string)
  (dbDriver : Base) : M World (BaseModelSqlv2 Base) :=
  ret {| bm_id := id; bm_viewId := viewId; bm_dbDriver := dbDriver |}.

(** Modelled from the spec: [BaseModelSqlv2.readByPk] is missing.  A read
    by primary key does not go through the view's filter (the default of
    section 4.5). *)
Definition mem_readByPk (bm : BaseModelSqlv2 Base) (rowId : string)
  (validate : bool) (q : obj) : M World (option obj) :=
  await t <- table_of (bm_id bm) ;;
  ret (List.find (has_key (pk t) rowId) (rows t)).

Definition mem_insert (bm : BaseModelSqlv2 Base) (record trx cookie : value)
  : M World obj :=
  await t <- table_of (bm_id bm) ;;
  match insert_row t record with
  | Ok (row, t') => fun w => (Ok row, put_table (bm_id bm) t' w)
  | Throw e => throw e
  end.

Definition mem_bulkInsert (bm : BaseModelSqlv2 Base) (records : list value)
  (cookie : value) : M World (list obj) :=
  await t <- table_of (bm_id bm) ;;
  match bulk_insert_rows t records with
  | Ok (echoes, t') => fun w => (Ok echoes, put_table (bm_id bm) t' w)
  | Throw e => throw e
  end.

Definition mem_bulkUpdate (bm : BaseModelSqlv2 Base) (records : list value)
  (cookie : value) : M World (list obj) :=
  await t <- table_of (bm_id bm) ;;
  match bulk_update_rows (pk t) records (rows t) with
  | Ok (echoes, rs) =>
      fun w => (Ok echoes, put_table (bm_id bm) (with_rows rs (next_id t) t) w)
  | Throw e => throw e
  end.

Definition view_of (viewId : option string) : M World (option View) :=
  fun w => (Ok (viewId ≫= fun id => views w !! id), w).

Definition mem_count (bm : BaseModelSqlv2 Base) (args : obj) : M World Z :=
  await t <- table_of (bm_id bm) ;;
  await view <- view_of (bm_viewId bm) ;;
  ret (Z.of_nat (length (matching view args t))).

(** Modelled from the spec: [DatasService.getDataList] is missing.  The
    list pipeline of section 2: count the matching rows, settle the window,
    refuse a valid offset beyond the total, then order, cut and project. *)
Definition mem_getDataList (model : Model) (view : option View) (q : obj)
  : M World PagedResponse :=
  await t <- table_of (model_id model) ;;
  let found := matching view q t in
  let total := Z.of_nat (length found) in
  let limit := effective_limit cfg q in
  let offset := effective_offset cfg q in
  if offset_out_of_range q total
  then NcError.unprocessableEntity "Offset is beyond the total number of records"
  else
    let window :=
      take (Z.to_nat limit) (drop (Z.to_nat offset) (order view q found)) in
    ret {| list_ := project (effective_fields t view q) <$> window;
           pageInfo := paginate offset limit total |}.

Definition backend : Collaborators World := {|
  Driver := Base;
  Model_get := mem_Model_get;
  View_get := mem_View_get;
  Base_get := mem_Base_get;
  NcConnectionMgrv2_get := mem_connect;
  Model_getBaseModelSQL := mem_getBaseModelSQL;
  readByPk := mem_readByPk;
  insert := mem_insert;
  bulkInsert := mem_bulkInsert;
  bulkUpdate := mem_bulkUpdate;
  count := mem_count;
  getDataList := mem_getDataList;
  JSON_parse := Text.parse
|}.

End Backend.

End Mem.

(** ** A sample deployment

    One base, the table [TextBased] of the unit tests with 400 rows, a grid
    view on it that hides two fields and keeps two countries, and a view
    that belongs to another table. *)
Module Sample.
Import Mem.

Definition cfg : Config :=
  {| limitDefault := 25; limitMax := 1000; offsetDefault := 0 |}.

(** The sample requests carry no [where] and no [sort]. *)
Definition no_where (q row : obj) : bool := true.
Definition stored_order (view : option View) (q : obj) (rs : list obj)
  : list obj := rs.

Definition countries : list string := ["Afghanistan"; "Austria"; "Brazil"].

Definition text_row (i : nat) : obj :=
  [("Id", VNum (Z.of_nat i));
   ("SingleLineText", VStr (nth (i mod 3) countries ""));
   ("MultiLineText", VStr "Allahabad, India");
   ("Email", VStr "a@b.com");
   ("Phone", VStr "1-541-754-3010");
   ("Url", VStr "https://www.abc.com")].

Definition textBased : Table :=
  {| columns :=
       ["Id"; "SingleLineText"; "MultiLineText"; "Email"; "Phone"; "Url"];
     pk := "Id";
     rows := text_row <$> seq 1 400;
     next_id := 401 |}.

Definition table : Model :=
  {| model_id := "md_text"; base_id := "b1"; project_id := "p1" |}.

Definition is_country (names : list string) (row : obj) : bool :=
  match get "SingleLineText" row with
  | VStr s => elem s names
  | _ => false
  end.

Definition gridView : View :=
  {| view_id := "vw_grid";
     fk_model_id := Some "md_text";
     view_filter := is_country ["Afghanistan"; "Austria"];
     view_hidden := ["MultiLineText"; "Email"] |}.

Definition otherView : View :=
  {| view_id := "vw_other";
     fk_model_id := Some "md_other";
     view_filter := fun _ => true;
     view_hidden := [] |}.

(** A table definition whose rows are gone from the backing store. *)
Definition ghost : Model :=
  {| model_id := "md_ghost"; base_id := "b1"; project_id := "p1" |}.

Definition world : World :=
  {| models := {[ "md_text" := table; "md_ghost" := ghost ]};
     views := {[ "vw_grid" := gridView; "vw_other" := otherView ]};
     bases := {[ "b1" := {| base_ident := "b1"; base_reachable := true |} ]};
     tables := {[ "md_text" := textBased ]} |}.

#[global] Instance sample : Collaborators World :=
  backend cfg no_where stored_order.

(** A request as the controller builds it: no project identifier. *)
Definition request_on (modelId : string) (viewId : option string)
  (rowId : string) (query : obj) (body : value) : Param :=
  {| projectId := None; modelId := modelId; viewId := viewId;
     rowId := rowId; query := query; body := body; cookie := VNull |}.

(** A request on the table [TextBased]. *)
Definition request : option string -> string -> obj -> value -> Param :=
  request_on "md_text".

(** The handle of [TextBased] outside any view. *)
Definition baseModel : BaseModelSqlv2 Base :=
  {| bm_id := "md_text"; bm_viewId := None;
     bm_dbDriver := {| base_ident := "b1"; base_reachable := true |} |}.

End Sample.

(** ** Further requests and deployments *)

Definition with_viewId (v : option string) (param : Param) : Param :=
  {| projectId := projectId param; modelId := modelId param;
     viewId := v; rowId := rowId param; query := query param;
     body := body param; cookie := cookie param |}.

Definition with_projectId (pid : option string) (param : Param) : Param :=
  {| projectId := pid; modelId := modelId param;
     viewId := viewId param; rowId := rowId param; query := query param;
     body := body param; cookie := cookie param |}.

(** The sample deployment while its base cannot be reached, and with a
    view that names no table. *)
Module Outage.
Import Mem.

Definition freeView : View :=
  {| view_id := "vw_free";
     fk_model_id := None;
     view_filter := fun _ => true;
     view_hidden := [] |}.

Definition world : World :=
  {| models := models Sample.world;
     views := <["vw_free" := freeView]> (views Sample.world);
     bases := {[ "b1" := {| base_ident := "b1"; base_reachable := false |} ]};
     tables := tables Sample.world |}.

End Outage.

(** ** The controller ([controllers/data-table.controller.ts]) *)

(** The clock the list route reads: [process.hrtime], with or without a
    start time, and the helper [parseHrtimeToSeconds]. *)
Class Clock (W : Type) : Type := {
  HrTime : Type;
  process_hrtime : option HrTime -> M W HrTime;
  parseHrtimeToSeconds : HrTime -> value
}.

Module DataTableController.

(** The parts of the request the routes read. *)
Record Request : Type := {
  req_query : obj;
  req_body : value
}.

(** The response object handed to a route: its headers and the body sent,
    if any. *)
Record Response : Type := {
  res_headers : obj;
  res_sent : option value
}.

(** [res.setHeader(name, v)] *)
Definition setHeader (name : string) (v : value) (res : Response) : Response :=
  {| res_headers := set name v (res_headers res); res_sent := res_sent res |}.

(** [res.json(data)] *)
Definition json (data : value) (res : Response) : Response :=
  {| res_headers := res_headers res; res_sent := Some data |}.

(** The request object as the value passed for [cookie]. *)
Definition asValue (req : Request) : value :=
  VObj [("query", VObj (req_query req)); ("body", req_body req)].

(** The list response as the value [res.json] sends. *)
Definition toJSON (r : PagedResponse) : value :=
  VObj [("list", VArr (VObj <$> list_ r));
        ("pageInfo",
         VObj [("totalRows", VNum (totalRows (pageInfo r)));
               ("page", VNum (page (pageInfo r)));
               ("pageSize", VNum (pageSize (pageInfo r)));
               ("isFirstPage", VBool (isFirstPage (pageInfo r)));
               ("isLastPage", VBool (isLastPage (pageInfo r)))])].

Section Routes.

Context {W : Type} `{C : Collaborators W} `{K : Clock W}.

(** The routes build the parameter object of the service call; a field the
    object literal leaves out is [None], [undefined] or empty here.  Each
    route is named after the service call it makes, which is the one named
    on its right-hand side. *)

(** [GET /api/v1/tables/:modelId/rows] *)
Definition dataList (req : Request) (res : Response) (modelId : string)
  (viewId : option string) : M W Response :=
  await startTime <- process_hrtime None ;;
  await responseData <-
    dataList {| projectId := None; modelId := modelId; viewId := viewId;
                rowId := ""; query := req_query req; body := VUndefined;
                cookie := VUndefined |} ;;
  await now <- process_hrtime (Some startTime) ;;
  let elapsedSeconds := parseHrtimeToSeconds now in
  let res := setHeader "xc-db-response" elapsedSeconds res in
  ret (json (toJSON responseData) res).

(** [GET /api/v1/tables/:modelId/rows/count] *)
Definition dataCount (req : Request) (res : Response) (modelId : string)
  (viewId : option string) : M W Response :=
  await countResult <-
    dataCount {| projectId := None; modelId := modelId; viewId := viewId;
                 rowId := ""; query := req_query req; body := VUndefined;
                 cookie := VUndefined |} ;;
  ret (json (VObj countResult) res).

(** [POST /api/v1/tables/:modelId/rows] *)
Definition dataInsert (req : Request) (modelId : string)
  (viewId : option string) (body : value) : M W value :=
  dataInsert {| projectId := None; modelId := modelId; viewId := viewId;
                rowId := ""; query := []; body := body;
                cookie := asValue req |}.

(** [PATCH /api/v1/tables/:modelId/rows] *)
Definition dataUpdate (req : Request) (modelId : string)
  (viewId : option string) (rowId : string) : M W value :=
  dataUpdate {| projectId := None; modelId := modelId; viewId := viewId;
                rowId := ""; query := []; body := req_body req;
                cookie := asValue req |}.

(** [DELETE /api/v1/tables/:modelId/rows] *)
Definition dataDelete (req : Request) (modelId : string)
  (viewId : option string) (rowId : string) : M W value :=
  dataDelete {| projectId := None; modelId := modelId; viewId := viewId;
                rowId := ""; query := []; body := req_body req;
                cookie := asValue req |}.

(** [GET /api/v1/base/tables/:modelId/rows/:rowId] *)
Definition dataRead (req : Request) (modelId : string)
  (viewId : option string) (rowId : string) : M W obj :=
  dataRead {| projectId := None; modelId := modelId; viewId := viewId;
              rowId := rowId; query := req_query req; body := VUndefined;
              cookie := VUndefined |}.

End Routes.

End DataTableController.

(** A clock for the sample deployment: the time is a counter that every
    reading advances, and a duration is reported in whole ticks. *)
Module SampleClock.

Definition Timed : Type := (Z * Mem.World)%type.

Definition lift {A} (m : M Mem.World A) : M Timed A :=
  fun tw =>
    match m tw.2 with
    | (r, w') => (r, (tw.1, w'))
    end.

Definition tick (start : option Z) : M Timed Z :=
  fun tw =>
    match start with
    | None => (Ok tw.1, (tw.1 + 1, tw.2))
    | Some t0 => (Ok (tw.1 - t0), (tw.1 + 1, tw.2))
    end.

#[global] Instance timed : Collaborators Timed := {|
  Driver := Base;
  Model_get id := lift (Model_get id);
  View_get id := lift (View_get id);
  Base_get id := lift (Base_get id);
  NcConnectionMgrv2_get b := lift (NcConnectionMgrv2_get b);
  Model_getBaseModelSQL id v d := lift (Model_getBaseModelSQL id v d);
  readByPk bm r b q := lift (readByPk bm r b q);
  insert bm r t c := lift (insert bm r t c);
  bulkInsert bm rs c := lift (bulkInsert bm rs c);
  bulkUpdate bm rs c := lift (bulkUpdate bm rs c);
  count bm a := lift (count bm a);
  getDataList m v q := lift (getDataList m v q);
  JSON_parse := Text.parse
|}.

#[global] Instance clock : Clock Timed := {|
  HrTime := Z;
  process_hrtime := tick;
  parseHrtimeToSeconds := VNum
|}.

End SampleClock.

(** ** Helpers of the unit tests ([tests/unit/rest/tests/newDataApis.test.ts]) *)

Module NewDataApisTest.

(** A column, as far as the helper reads it. *)
Record ColumnType : Type := { title : string }.

(** [Array.prototype.sort]: a stable sort; the result is the ordered
    rearrangement of the array, which insertion computes. *)
Fixpoint sorted_insert {A} (le : A -> A -> bool) (x : A) (l : list A)
  : list A :=
  match l with
  | [] => [x]
  | y :: l' => if le x y then x :: l else y :: sorted_insert le x l'
  end.

Definition sort_by {A} (le : A -> A -> bool) (l : list A) : list A :=
  foldr (sorted_insert le) [] l.

(** The default order of [sort] on strings: by character code. *)
Definition sort (l : list string) : list string := sort_by String.leb l.

(** [Array.prototype.join] *)
Definition join (sep : string) (l : list string) : string :=
  String.concat sep l.

Definition verifyColumnsInRsp (row : obj) (columns : list ColumnType) : bool :=
  let responseColumnsListStr := join "," (sort (keys row)) in
  let expectedColumnsListStr := join "," (sort (title <$> columns)) in
  String.eqb responseColumnsListStr expectedColumnsListStr.

(** *** Arrays by reference

    [sort], [reverse] and [fill] change the array they are called on and
    return that same array; [map] makes a new one. *)

Abbreviation Heap := (gmap nat (list value)).

Definition alloc (items : list value) (h : Heap) : nat * Heap :=
  let r := fresh (dom h) in (r, <[r := items]> h).

Definition items_of (h : Heap) (a : nat) : list value := default [] (h !! a).

(** The default order of [sort]: [undefined] goes last, every other value
    is compared by its text. *)
Definition default_le (a b : value) : bool :=
  match a, b with
  | _, VUndefined => true
  | VUndefined, _ => false
  | _, _ => String.leb (toString a) (toString b)
  end.

(** [a.map(f)]: a new array of the results, in order.  [None] stands for
    the [TypeError] thrown when [a] is not an array, or for what [f] throws
    on an element. *)
Definition Array_map (f : value -> option value) (a : nat) (h : Heap)
  : option (nat * Heap) :=
  match h !! a with
  | Some items =>
      match mapM f items with
      | Some mapped => Some (alloc mapped h)
      | None => None
      end
  | None => None
  end.

Definition Array_sort (a : nat) (h : Heap) : nat * Heap :=
  (a, alter (sort_by default_le) a h).

Definition Array_reverse (a : nat) (h : Heap) : nat * Heap :=
  (a, alter (@rev value) a h).

Definition Array_fill (v : value) (a : nat) (h : Heap) : nat * Heap :=
  (a, alter (map (fun _ => v)) a h).

(** [columns.find((c) => c.title === name)] *)
Definition find_column (name : string) (columns : list ColumnType)
  : option ColumnType :=
  List.find (fun c => String.eqb (title c) name) columns.

Section Expectations.

(** The structural comparison of the assertion library, for two arrays
    that are not the same array. *)
Variable structural : Heap -> nat -> nat -> bool.

(** The property read [r[name]] of the runtime; [None] stands for the
    [TypeError] it throws, as it does when [r] is [null] or [undefined]. *)
Variable read : string -> value -> option value.

(** [expect(actual).to.deep.equal(expected)]: an array equals itself. *)
Definition deep_equal (h : Heap) (actual expected : nat) : bool :=
  bool_decide (actual = expected) || structural h actual expected.

(** [(r) => r[sortColumn.title]]: reading [title] of a column that was not
    found throws. *)
Definition by_sortColumn (sortColumn : option ColumnType) (r : value)
  : option value :=
  match sortColumn with
  | Some c => read (title c) r
  | None => None
  end.

(** The two last statements of 'List: sort, ascending', on the array
    [list] of the response:
    [const sortedArray = rsp.body.list.map((r) => r[sortColumn.title])] and
    [expect(sortedArray).to.deep.equal(sortedArray.sort())].  The result is
    the verdict of the expectation, or [None] when the mapping throws. *)
Definition sort_ascending_expectation (columns : list ColumnType)
  (list : nat) (h : Heap) : option (bool * Heap) :=
  let sortColumn := find_column "SingleLineText" columns in
  match Array_map (by_sortColumn sortColumn) list h with
  | Some (sortedArray, h) =>
      let actual := sortedArray in
      let '(expected, h) := Array_sort sortedArray h in
      Some (deep_equal h actual expected, h)
  | None => None
  end.

(** The two last statements of 'List: sort, descending':
    [expect(descSortedArray).to.deep.equal(descSortedArray.sort().reverse())]. *)
Definition sort_descending_expectation (columns : list ColumnType)
  (list : nat) (h : Heap) : option (bool * Heap) :=
  let sortColumn := find_column "SingleLineText" columns in
  match Array_map (by_sortColumn sortColumn) list h with
  | Some (descSortedArray, h) =>
      let actual := descSortedArray in
      let '(sorted, h) := Array_sort descSortedArray h in
      let '(expected, h) := Array_reverse sorted h in
      Some (deep_equal h actual expected, h)
  | None => None
  end.

(** The two last statements of 'List: filter, single':
    [const filteredArray = rsp.body.list.map((r) => r.SingleLineText)] and
    [expect(filteredArray).to.deep.equal(filteredArray.fill('Afghanistan'))]. *)
Definition filter_single_expectation (list : nat) (h : Heap)
  : option (bool * Heap) :=
  match Array_map (read "SingleLineText") list h with
  | Some (filteredArray, h) =>
      let actual := filteredArray in
      let '(expected, h) := Array_fill (VStr "Afghanistan") filteredArray h in
      Some (deep_equal h actual expected, h)
  | None => None
  end.

End Expectations.

End NewDataApisTest.

(** A column title the helper can tell apart from its neighbours: not
    empty and without a comma. *)
Fixpoint has_comma (s : string) : bool :=
  match s with
  | EmptyString => false
  | String c r => Ascii.eqb c "," || has_comma r
  end.

Definition plain_title (s : string) : Prop :=
  s <> "" /\ has_comma s = false.

(** The order of strings by character code, as a relation. *)
Definition str_le (a b : string) : Prop := String.leb a b = true.

(** * Properties *)

(** ** Running a computation *)

Section Run.

Context {W : Type}.

Lemma bind_Ok {A B} (m : M W A) (k : A -> M W B) w a w' :
  m w = (Ok a, w') -> bind m k w = k a w'.
Proof. intros E. unfold bind. now rewrite E. Qed.

Lemma bind_Throw {A B} (m : M W A) (k : A -> M W B) w e w' :
  m w = (Throw e, w') -> bind m k w = (Throw e, w').
Proof. intros E. unfold bind. now rewrite E. Qed.

Lemma bind_Ok_inv {A B} (m : M W A) (k : A -> M W B) w b w'' :
  bind m k w = (Ok b, w'') ->
  exists a w', m w = (Ok a, w') /\ k a w' = (Ok b, w'').
Proof.
  unfold bind. destruct (m w) as [[a|e] w'] eqn:E; intros H.
  - now exists a, w'.
  - discriminate H.
Qed.

Lemma bind_Throw_inv {A B} (m : M W A) (k : A -> M W B) w e w'' :
  bind m k w = (Throw e, w'') ->
  m w = (Throw e, w'') \/
  exists a w', m w = (Ok a, w') /\ k a w' = (Throw e, w'').
Proof.
  unfold bind. destruct (m w) as [[a|e'] w'] eqn:E; intros H.
  - right. now exists a, w'.
  - left. now inversion H.
Qed.

End Run.

(** ** Resolving the table and the view *)

Section Resolve.

Context {W : Type} `{C : Collaborators W}.

Lemma project_check_passes (p : Param) (model : Model) :
  project_ok p model ->
  truthy (projectId p)
  && negb (bool_decide (Some (project_id model) = projectId p)) = false.
Proof.
  intros [H|H].
  - now rewrite H.
  - rewrite H, bool_decide_eq_true_2 by reflexivity. apply andb_false_r.
Qed.

Lemma getModelAndView_no_model (p : Param) (w w1 : W) :
  Model_get (modelId p) w = (Ok None, w1) ->
  getModelAndView p w = (Throw (NotFound "Model not found"), w1).
Proof.
  intros E. unfold getModelAndView.
  rewrite (bind_Ok _ _ _ _ _ E). reflexivity.
Qed.

Lemma getModelAndView_Model_get_throws (p : Param) (w w1 : W) e :
  Model_get (modelId p) w = (Throw e, w1) ->
  getModelAndView p w = (Throw e, w1).
Proof. intros E. unfold getModelAndView. now rewrite (bind_Throw _ _ _ _ _ E). Qed.

Lemma getModelAndView_view (p : Param) (w w1 w2 : W) model vid v :
  Model_get (modelId p) w = (Ok (Some model), w1) ->
  project_ok p model ->
  viewId p = Some vid -> vid <> "" ->
  View_get vid w1 = (Ok v, w2) ->
  getModelAndView p w =
    match v with
    | None => (Throw (UnprocessableEntity "View not belong to model"), w2)
    | Some view =>
        if truthy (fk_model_id view)
           && negb (bool_decide (fk_model_id view = Some (modelId p)))
        then (Throw (UnprocessableEntity "View not belong to model"), w2)
        else (Ok (model, Some view), w2)
    end.
Proof.
  intros Em Hp Hv Hne Ev. unfold getModelAndView.
  rewrite (bind_Ok _ _ _ _ _ Em). cbn [bind ret].
  rewrite (project_check_passes _ _ Hp). cbn [bind ret].
  rewrite Hv. cbn [truthy default].
  assert (String.eqb vid "" = false) as -> by now apply String.eqb_neq.
  cbn [negb]. unfold id, bind. rewrite Ev.
  destruct v as [view|]; [|reflexivity].
  destruct (truthy (fk_model_id view) && _); reflexivity.
Qed.

(** The view step of [getModelAndView], read backwards. *)
Lemma getModelAndView_view_inv (p : Param) (w1 w' : W) (view : option View) :
  (if truthy (viewId p) then
     bind (View_get (default "" (viewId p)))
       (fun v =>
          match v with
          | None => NcError.unprocessableEntity "View not belong to model"
          | Some view =>
              if truthy (fk_model_id view)
                 && negb (bool_decide (fk_model_id view = Some (modelId p)))
              then NcError.unprocessableEntity "View not belong to model"
              else ret (Some view)
          end)
   else ret None) w1 = (Ok view, w') ->
  (truthy (viewId p) = false /\ view = None /\ w' = w1)
  \/ (exists vid v,
        viewId p = Some vid /\ vid <> ""
        /\ View_get vid w1 = (Ok (Some v), w')
        /\ view = Some v
        /\ (truthy (fk_model_id v) = false
            \/ fk_model_id v = Some (modelId p))).
Proof.
  destruct (viewId p) as [vid|] eqn:Hv; cbn [truthy default from_option].
  2: { intros [= <- <-]. now left. }
  destruct (String.eqb vid "") eqn:Hne; cbn [negb].
  { intros [= <- <-]. now left. }
  apply String.eqb_neq in Hne. unfold id. intros H.
  apply bind_Ok_inv in H as (v & w2 & Ev & H).
  destruct v as [v|]; [|discriminate H].
  destruct (truthy (fk_model_id v)) eqn:Ht; cbn [andb] in H.
  - destruct (bool_decide _) eqn:Hd; [|discriminate H].
    apply bool_decide_eq_true_1 in Hd. inversion H; subst; clear H.
    right. exists vid, v. repeat (split; [easy|]). now right.
  - inversion H; subst; clear H.
    right. exists vid, v. repeat (split; [easy|]). now left.
Qed.

Lemma getModelAndView_no_viewId (p : Param) (w w1 : W) model :
  Model_get (modelId p) w = (Ok (Some model), w1) ->
  project_ok p model ->
  truthy (viewId p) = false ->
  getModelAndView p w = (Ok (model, None), w1).
Proof.
  intros Em Hp Hv. unfold getModelAndView.
  rewrite (bind_Ok _ _ _ _ _ Em). cbn [bind ret].
  rewrite (project_check_passes _ _ Hp). cbn [bind ret].
  rewrite Hv. reflexivity.
Qed.

(** What a successful resolution tells: the table resolved and passed the
    project check, and the view, if the request names one, resolved to a
    view with no table reference or with the requested table's. *)
Lemma getModelAndView_Ok_inv (p : Param) (w w' : W) model view :
  getModelAndView p w = (Ok (model, view), w') ->
  exists w1,
    Model_get (modelId p) w = (Ok (Some model), w1)
    /\ project_ok p model
    /\ ((truthy (viewId p) = false /\ view = None /\ w' = w1)
        \/ (exists vid v,
              viewId p = Some vid /\ vid <> ""
              /\ View_get vid w1 = (Ok (Some v), w')
              /\ view = Some v
              /\ (truthy (fk_model_id v) = false
                  \/ fk_model_id v = Some (modelId p)))).
Proof.
  unfold getModelAndView. intros H.
  apply bind_Ok_inv in H as (m & w1 & Em & H).
  apply bind_Ok_inv in H as (model' & w1' & Hm & H).
  destruct m as [m|]; [|discriminate Hm]. inversion Hm; subst; clear Hm.
  apply bind_Ok_inv in H as ([] & w2 & Hp & H).
  destruct (truthy (projectId p)) eqn:Htp; cbn [andb] in Hp.
  2: { inversion Hp; subst; clear Hp.
       apply bind_Ok_inv in H as (view' & w3 & Hv & H).
       inversion H; subst; clear H.
       exists w2. split; [assumption|]. split; [now left|].
       revert Hv. apply getModelAndView_view_inv. }
  destruct (bool_decide _) eqn:Hd; [|discriminate Hp].
  apply bool_decide_eq_true_1 in Hd.
  inversion Hp; subst; clear Hp.
  apply bind_Ok_inv in H as (view' & w3 & Hv & H).
  inversion H; subst; clear H.
  exists w2. split; [assumption|]. split; [now right|].
  revert Hv. apply getModelAndView_view_inv.
Qed.

(** An operation that answers went through the resolution step. *)
Lemma handle_Ok_resolved op (p : Param) (w w' : W) (r : response) :
  handle op p w = (Ok r, w') ->
  exists model view w1, getModelAndView p w = (Ok (model, view), w1).
Proof.
  intros H.
  destruct op; unfold handle in H;
    [unfold dataList in H | unfold dataRead in H | unfold dataCount in H
    | unfold dataInsert in H | unfold dataUpdate in H
    | unfold dataDelete in H];
    apply bind_Ok_inv in H as (r0 & w0 & H & _);
    apply bind_Ok_inv in H as ([model view] & w1 & H & _);
    now exists model, view, w1.
Qed.

(** The three connection steps of an operation run as [getBaseModel]. *)
Lemma with_getBaseModel {A} (model : Model) (view : option View)
  (k : BaseModelSqlv2 Driver -> M W A) (w : W) :
  bind (Base_get (base_id model))
    (fun base =>
       bind (NcConnectionMgrv2_get base)
         (fun dbDriver =>
            bind (Model_getBaseModelSQL (model_id model) (view_id <$> view)
                    dbDriver) k)) w =
  bind (getBaseModel model view) k w.
Proof.
  unfold getBaseModel, bind.
  destruct (Base_get (base_id model) w) as [[base|e] w1]; [|reflexivity].
  destruct (NcConnectionMgrv2_get base w1) as [[dbDriver|e] w2];
    reflexivity.
Qed.

(** Whatever ends [getModelAndView] ends the operation: the six service
    calls start with it and catch nothing. *)
Lemma handle_getModelAndView_Throw op (p : Param) (w w' : W) e :
  getModelAndView p w = (Throw e, w') ->
  handle op p w = (Throw e, w').
Proof.
  intros E.
  destruct op; unfold handle;
    [unfold dataList | unfold dataRead | unfold dataCount
    | unfold dataInsert | unfold dataUpdate | unfold dataDelete];
    apply bind_Throw; apply bind_Throw; exact E.
Qed.

End Resolve.

(** ** Errors of the resolution step *)

Section ResolutionErrors.

Context {W : Type} `{C : Collaborators W}.

(** C2 (amended).  When the table resolves and the request carries a
    non-empty [viewId] that resolves to no view, each of the six operations
    ends with the unprocessable-entity error 'View not belong to model', the
    same terminal failure a view of another table gets; it is not a
    [NotFound]. *)
Theorem C2_unknown_view_is_unprocessable
  (op : operation) (p : Param) (w w1 w2 : W) (model : Model) (vid : string) :
  Model_get (modelId p) w = (Ok (Some model), w1) ->
  project_ok p model ->
  viewId p = Some vid -> vid <> "" ->
  View_get vid w1 = (Ok None, w2) ->
  handle op p w =
    (Throw (UnprocessableEntity "View not belong to model"), w2).
Proof.
  intros Em Hp Hv Hne Ev.
  apply handle_getModelAndView_Throw.
  now rewrite (getModelAndView_view p w w1 w2 model vid None).
Qed.

(** C4.  When the table resolves and the supplied view resolves to a view
    whose table reference is present and differs from the requested table,
    each of the six operations ends with the unprocessable-entity error
    'View not belong to model'.  There is no fallback to the table's default
    scope: an operation that answers a request naming a view has resolved
    that very view, and the view's table reference is absent or is the
    requested table. *)
Theorem C4_view_of_another_table (op : operation) (p : Param) (w : W) :
  (forall w1 w2 model vid view fk,
      Model_get (modelId p) w = (Ok (Some model), w1) ->
      project_ok p model ->
      viewId p = Some vid -> vid <> "" ->
      View_get vid w1 = (Ok (Some view), w2) ->
      fk_model_id view = Some fk -> fk <> "" -> fk <> modelId p ->
      handle op p w =
        (Throw (UnprocessableEntity "View not belong to model"), w2))
  /\ (forall r w' vid,
        handle op p w = (Ok r, w') ->
        viewId p = Some vid -> vid <> "" ->
        exists model view w1 w2,
          Model_get (modelId p) w = (Ok (Some model), w1)
          /\ View_get vid w1 = (Ok (Some view), w2)
          /\ getModelAndView p w = (Ok (model, Some view), w2)
          /\ (truthy (fk_model_id view) = false
              \/ fk_model_id view = Some (modelId p))).
Proof.
  split.
  - intros w1 w2 model vid view fk Em Hp Hv Hne Ev Hfk Hfk1 Hfk2.
    apply handle_getModelAndView_Throw.
    rewrite (getModelAndView_view p w w1 w2 model vid (Some view))
      by assumption.
    rewrite Hfk. cbn [truthy].
    assert (String.eqb fk "" = false) as -> by now apply String.eqb_neq.
    rewrite bool_decide_eq_false_2; [reflexivity|].
    intros [= ->]. now apply Hfk2.
  - intros r w' vid H Hv Hne.
    apply handle_Ok_resolved in H as (model & view & w2 & Eg).
    destruct (getModelAndView_Ok_inv _ _ _ _ _ Eg)
      as (w1 & Em & _ & [(Ht & _)|(vid' & v & Hv' & _ & Ev & -> & Hfk)]).
    + rewrite Hv in Ht. cbn [truthy] in Ht.
      apply negb_false_iff, String.eqb_eq in Ht. contradiction.
    + rewrite Hv in Hv'. injection Hv' as <-.
      now exists model, v, w1, w2.
Qed.

(** C5.  An unresolved table identifier ends each of the six operations
    with [NotFound] 'Model not found'; a read whose row identifier matches
    no row ends with [NotFound] 'Row not found'; and an error the row lookup
    itself throws, a [NotFound] included, is the error the caller gets,
    unchanged. *)
Theorem C5_not_found_reaches_the_caller
  (op : operation) (p : Param) (w w1 : W) :
  (Model_get (modelId p) w = (Ok None, w1) ->
   handle op p w = (Throw (NotFound "Model not found"), w1))
  /\ (forall model view bm w2 w3,
        getModelAndView p w = (Ok (model, view), w1) ->
        getBaseModel model view w1 = (Ok bm, w2) ->
        readByPk bm (rowId p) false (query p) w2 = (Ok None, w3) ->
        dataRead p w = (Throw (NotFound "Row not found"), w3))
  /\ (forall e model view bm w2 w3,
        getModelAndView p w = (Ok (model, view), w1) ->
        getBaseModel model view w1 = (Ok bm, w2) ->
        readByPk bm (rowId p) false (query p) w2 = (Throw e, w3) ->
        dataRead p w = (Throw e, w3)).
Proof.
  split; [|split].
  - intros E. apply handle_getModelAndView_Throw.
    now apply getModelAndView_no_model.
  - intros model view bm w2 w3 Eg Eb Er. unfold dataRead.
    rewrite (bind_Ok _ _ _ _ _ Eg). cbn beta iota. rewrite with_getBaseModel.
    rewrite (bind_Ok _ _ _ _ _ Eb), (bind_Ok _ _ _ _ _ Er). reflexivity.
  - intros e model view bm w2 w3 Eg Eb Er. unfold dataRead.
    rewrite (bind_Ok _ _ _ _ _ Eg). cbn beta iota. rewrite with_getBaseModel.
    rewrite (bind_Ok _ _ _ _ _ Eb). now apply bind_Throw.
Qed.

End ResolutionErrors.

Lemma C2_unknown_view_witness :
  handle OpList (Sample.request (Some "123456789") "" [] VNull) Sample.world =
    (Throw (UnprocessableEntity "View not belong to model"), Sample.world).
Proof.
  apply (C2_unknown_view_is_unprocessable OpList
           (Sample.request (Some "123456789") "" [] VNull)
           Sample.world Sample.world Sample.world Sample.table "123456789").
  - vm_compute. reflexivity.
  - left. reflexivity.
  - reflexivity.
  - discriminate.
  - vm_compute. reflexivity.
Defined.

(** C2, as stated, fails: the view identifier of the unit test resolves to
    no view of the sample deployment, and no operation ends with
    [NotFound]. *)
Lemma C2_counterexample :
  Model_get "md_text" Sample.world = (Ok (Some Sample.table), Sample.world)
  /\ View_get "123456789" Sample.world = (Ok None, Sample.world)
  /\ forall op msg w',
       handle op (Sample.request (Some "123456789") "" [] VNull) Sample.world
       <> (Throw (NotFound msg), w').
Proof.
  split; [vm_compute; reflexivity|].
  split; [vm_compute; reflexivity|].
  intros op msg w'. destruct op; vm_compute; discriminate.
Qed.

Lemma C4_view_of_another_table_witness :
  handle OpRead (Sample.request (Some "vw_other") "1" [] VNull) Sample.world =
    (Throw (UnprocessableEntity "View not belong to model"), Sample.world)
  /\ exists model view w1 w2,
       Model_get "md_text" Sample.world = (Ok (Some model), w1)
       /\ View_get "vw_grid" w1 = (Ok (Some view), w2)
       /\ getModelAndView (Sample.request (Some "vw_grid") "" [] VNull)
            Sample.world = (Ok (model, Some view), w2)
       /\ (truthy (fk_model_id view) = false
           \/ fk_model_id view = Some "md_text").
Proof.
  split.
  - apply (proj1 (C4_view_of_another_table OpRead
             (Sample.request (Some "vw_other") "1" [] VNull) Sample.world)
             Sample.world Sample.world Sample.table "vw_other"
             Sample.otherView "md_other").
    + vm_compute. reflexivity.
    + left. reflexivity.
    + reflexivity.
    + discriminate.
    + vm_compute. reflexivity.
    + reflexivity.
    + discriminate.
    + discriminate.
  - apply (proj2 (C4_view_of_another_table OpCount
             (Sample.request (Some "vw_grid") "" [] VNull) Sample.world)
             (CountResponse [("count", VNum 267)]) Sample.world "vw_grid").
    + vm_compute. reflexivity.
    + reflexivity.
    + discriminate.
Defined.

Lemma C5_not_found_witness :
  handle OpUpdate (Sample.request_on "123456789" None "" [] (VArr []))
    Sample.world = (Throw (NotFound "Model not found"), Sample.world)
  /\ dataRead (Sample.request None "1000" [] VNull) Sample.world =
       (Throw (NotFound "Row not found"), Sample.world)
  /\ dataRead (Sample.request_on "md_ghost" None "1" [] VNull) Sample.world =
       (Throw (NotFound "Table not found"), Sample.world).
Proof.
  split; [|split].
  - apply (C5_not_found_reaches_the_caller OpUpdate
             (Sample.request_on "123456789" None "" [] (VArr []))
             Sample.world Sample.world).
    vm_compute. reflexivity.
  - apply (proj1 (proj2 (C5_not_found_reaches_the_caller (C := Sample.sample) OpRead
             (Sample.request None "1000" [] VNull) Sample.world Sample.world))
             Sample.table None Sample.baseModel Sample.world Sample.world);
      vm_compute; reflexivity.
  - apply (proj2 (proj2 (C5_not_found_reaches_the_caller (C := Sample.sample) OpRead
             (Sample.request_on "md_ghost" None "1" [] VNull)
             Sample.world Sample.world))
             (NotFound "Table not found") Sample.ghost None
             {| bm_id := "md_ghost"; bm_viewId := None;
                bm_dbDriver := bm_dbDriver Sample.baseModel |}
             Sample.world Sample.world);
      vm_compute; reflexivity.
Defined.

(** ** Counting *)

Section Counting.

Context {W : Type} `{C : Collaborators W}.

Lemma get_absent (k : string) (o : obj) :
  has k o = false -> get k o = VUndefined.
Proof.
  unfold has. induction o as [|[k' v] o IH]; cbn [existsb get fst].
  - reflexivity.
  - intros H. apply orb_false_elim in H as [H1 H2]. rewrite H1. now apply IH.
Qed.

Lemma countArgs_unparsed (q : obj) :
  JSON_parse (toString (get "filterArrJson" q)) = None -> countArgs q = q.
Proof. intros E. unfold countArgs, spread. now rewrite E. Qed.

Lemma dataCount_runs (p : Param) (w w1 w2 : W) model view bm :
  getModelAndView p w = (Ok (model, view), w1) ->
  getBaseModel model view w1 = (Ok bm, w2) ->
  dataCount p w =
    match count bm (countArgs (query p)) w2 with
    | (Ok n, w3) => (Ok [("count", VNum n)], w3)
    | (Throw e, w3) => (Throw e, w3)
    end.
Proof.
  intros Eg Eb. unfold dataCount.
  rewrite (bind_Ok _ _ _ _ _ Eg). cbn beta iota. rewrite with_getBaseModel.
  rewrite (bind_Ok _ _ _ _ _ Eb). reflexivity.
Qed.

Lemma dataCount_shape (p : Param) (w w' : W) (o : obj) :
  dataCount p w = (Ok o, w') -> exists n, o = [("count", VNum n)].
Proof.
  unfold dataCount. intros H.
  apply bind_Ok_inv in H as ([model view] & w1 & _ & H).
  rewrite with_getBaseModel in H.
  apply bind_Ok_inv in H as (bm & w2 & _ & H).
  apply bind_Ok_inv in H as (n & w3 & _ & H).
  exists n. now inversion H.
Qed.


End Counting.


(** ** Single records and batches *)

Section Batches.

Context {W : Type} `{C : Collaborators W}.

Lemma index_first_of (res : list obj) :
  first_of (VArr (VObj <$> res)) = index res 0.
Proof. now destruct res. Qed.

Lemma asBatch_single (b : value) : isArray b = false -> asBatch b = [b].
Proof. now destruct b. Qed.

(** The body of [dataUpdate], which is also the body of [dataDelete]. *)
Lemma bulk_path_single (p : Param) (w : W) :
  isArray (body p) = false ->
  dataUpdate p w = single_via_bulk dataUpdate p w.
Proof.
  intros Hb. unfold single_via_bulk, dataUpdate. cbn [body cookie with_body].
  change (getModelAndView (with_body (VArr [body p]) p))
    with (getModelAndView p).
  rewrite (asBatch_single _ Hb). cbn [asBatch isArray unBatch].
  unfold unBatch. rewrite Hb. unfold bind.
  destruct (getModelAndView p w) as [[[model view]|e] w1]; [|reflexivity].
  destruct (Base_get (base_id model) w1) as [[base|e] wa]; [|reflexivity].
  destruct (NcConnectionMgrv2_get base wa) as [[dbDriver|e] wb];
    [|reflexivity].
  destruct (Model_getBaseModelSQL _ _ dbDriver wb) as [[bm|e] w2];
    [|reflexivity].
  destruct (bulkUpdate bm [body p] (cookie p) w2) as [[res|e] w3];
    [|reflexivity].
  cbn [ret]. now rewrite index_first_of.
Qed.

(** [dataUpdate] on a body that is not an array, step by step. *)
Lemma bulk_path_first (p : Param) (w : W) :
  isArray (body p) = false ->
  dataUpdate p w = first_of_bulkUpdate p w.
Proof.
  intros Hb. unfold dataUpdate, first_of_bulkUpdate.
  rewrite (asBatch_single _ Hb). unfold unBatch. rewrite Hb.
  unfold bind at 1. symmetry. unfold bind at 1. symmetry.
  destruct (getModelAndView p w) as [[[model view]|e] w1]; [|reflexivity].
  apply with_getBaseModel.
Qed.

Lemma first_of_bulkUpdate_runs (p : Param) (w w1 w2 : W) model view bm :
  getModelAndView p w = (Ok (model, view), w1) ->
  getBaseModel model view w1 = (Ok bm, w2) ->
  first_of_bulkUpdate p w =
    match bulkUpdate bm [body p] (cookie p) w2 with
    | (Ok res, w3) => (Ok (index res 0), w3)
    | (Throw e, w3) => (Throw e, w3)
    end.
Proof.
  intros Eg Eb. unfold first_of_bulkUpdate.
  rewrite (bind_Ok _ _ _ _ _ Eg). cbn beta iota.
  rewrite (bind_Ok _ _ _ _ _ Eb). unfold bind.
  now destruct (bulkUpdate bm [body p] (cookie p) w2) as [[res|e] w3].
Qed.

(** C10.  For a body that is not an array, [dataUpdate] is
    [bulkUpdate([body])[0]]: once the table, the view and the base model
    are resolved, it runs the store's [bulkUpdate] on the one-element batch
    [[body]] and answers with the first element of the result (with
    [bulkUpdate]'s error, if it throws).  [dataDelete] treats such a body
    the same way, and each of the two is also its own array path on
    [[body]] followed by taking the first element. *)
Theorem C10_single_is_first_of_bulk (p : Param) (w : W) :
  isArray (body p) = false ->
  (dataUpdate p w = first_of_bulkUpdate p w
   /\ dataDelete p w = first_of_bulkUpdate p w)
  /\ (forall model view w1 bm w2,
        getModelAndView p w = (Ok (model, view), w1) ->
        getBaseModel model view w1 = (Ok bm, w2) ->
        dataUpdate p w =
          match bulkUpdate bm [body p] (cookie p) w2 with
          | (Ok res, w3) => (Ok (index res 0), w3)
          | (Throw e, w3) => (Throw e, w3)
          end
        /\ dataDelete p w =
             match bulkUpdate bm [body p] (cookie p) w2 with
             | (Ok res, w3) => (Ok (index res 0), w3)
             | (Throw e, w3) => (Throw e, w3)
             end)
  /\ (dataUpdate p w = single_via_bulk dataUpdate p w
      /\ dataDelete p w = single_via_bulk dataDelete p w).
Proof.
  intros Hb.
  assert (dataDelete p w = dataUpdate p w) as Hd by reflexivity.
  split; [|split].
  - rewrite Hd. split; now apply bulk_path_first.
  - intros model view w1 bm w2 Eg Eb. rewrite Hd.
    rewrite (bulk_path_first p w Hb).
    rewrite (first_of_bulkUpdate_runs p w w1 w2 model view bm Eg Eb).
    now split.
  - split.
    + now apply bulk_path_single.
    + change dataDelete with dataUpdate. now apply bulk_path_single.
Qed.

End Batches.

Lemma C10_single_witness :
  (dataUpdate
     (Sample.request None "" []
        (VObj [("Id", VNum 1); ("SingleLineText", VStr "some text")]))
     Sample.world =
   first_of_bulkUpdate
     (Sample.request None "" []
        (VObj [("Id", VNum 1); ("SingleLineText", VStr "some text")]))
     Sample.world
   /\ dataDelete
        (Sample.request None "" []
           (VObj [("Id", VNum 1); ("SingleLineText", VStr "some text")]))
        Sample.world =
      first_of_bulkUpdate
        (Sample.request None "" []
           (VObj [("Id", VNum 1); ("SingleLineText", VStr "some text")]))
        Sample.world)
  /\ (dataUpdate (Sample.request None "" [] (VObj [("Id", VNum 1)]))
        Sample.world =
      match bulkUpdate (Collaborators := Sample.sample) Sample.baseModel
              [VObj [("Id", VNum 1)]] VNull
              Sample.world with
      | (Ok res, w3) => (Ok (index res 0), w3)
      | (Throw e, w3) => (Throw e, w3)
      end
      /\ dataDelete (Sample.request None "" [] (VObj [("Id", VNum 1)]))
           Sample.world =
         match bulkUpdate (Collaborators := Sample.sample) Sample.baseModel
              [VObj [("Id", VNum 1)]] VNull
                 Sample.world with
         | (Ok res, w3) => (Ok (index res 0), w3)
         | (Throw e, w3) => (Throw e, w3)
         end)
  /\ dataUpdate (Sample.request None "" [] (VObj [("Id", VNum 1)]))
       Sample.world =
     (Ok (VObj [("Id", VStr "1")]), Sample.world).
Proof.
  split; [|split].
  - apply (C10_single_is_first_of_bulk (C := Sample.sample)
             (Sample.request None "" []
                (VObj [("Id", VNum 1); ("SingleLineText", VStr "some text")]))
             Sample.world).
    reflexivity.
  - apply (proj1 (proj2 (C10_single_is_first_of_bulk (C := Sample.sample)
             (Sample.request None "" [] (VObj [("Id", VNum 1)]))
             Sample.world eq_refl))
             Sample.table None Sample.world Sample.baseModel Sample.world);
      vm_compute; reflexivity.
  - rewrite (proj1 (proj1 (proj2 (C10_single_is_first_of_bulk
               (C := Sample.sample)
               (Sample.request None "" [] (VObj [("Id", VNum 1)]))
               Sample.world eq_refl))
               Sample.table None Sample.world Sample.baseModel Sample.world
               ltac:(vm_compute; reflexivity) ltac:(vm_compute; reflexivity))).
    vm_compute. reflexivity.
Defined.

(** ** The shape of a mutation response *)

Section Shapes.

Context {W : Type} `{C : Collaborators W}.

Lemma dataInsert_shape (p : Param) (w w' : W) (r : value) :
  dataInsert p w = (Ok r, w') ->
  isArray r = isArray (body p) /\ isObject r = negb (isArray (body p)).
Proof.
  unfold dataInsert. intros H.
  apply bind_Ok_inv in H as ([model view] & w1 & _ & H).
  rewrite with_getBaseModel in H.
  apply bind_Ok_inv in H as (bm & w2 & _ & H).
  destruct (body p);
    apply bind_Ok_inv in H as (res & w3 & _ & H);
    inversion H; subst; now split.
Qed.

Lemma bulk_path_shape (Hecho : echoes_each_record) (p : Param) (w w' : W)
  (r : value) :
  dataUpdate p w = (Ok r, w') ->
  isArray r = isArray (body p) /\ isObject r = negb (isArray (body p)).
Proof.
  unfold dataUpdate. intros H.
  apply bind_Ok_inv in H as ([model view] & w1 & _ & H).
  rewrite with_getBaseModel in H.
  apply bind_Ok_inv in H as (bm & w2 & _ & H).
  apply bind_Ok_inv in H as (res & w3 & Hres & H).
  inversion H; subst; clear H.
  apply Hecho in Hres. unfold unBatch.
  destruct (isArray (body p)) eqn:Hb; [now split|].
  rewrite (asBatch_single _ Hb) in Hres.
  destruct res as [|o [|]]; try discriminate Hres. now split.
Qed.

(** C3.  With a bulk update that returns one echo per record, the answer of
    [dataInsert], of [dataUpdate] and of [dataDelete] has the shape of the
    body: an array for an array body, and for a single-object body a single
    object, which is not an array of one element. *)
Theorem C3_shape_is_preserved (Hecho : echoes_each_record) (p : Param)
  (w w' : W) (r : value) :
  dataInsert p w = (Ok r, w') \/
  dataUpdate p w = (Ok r, w') \/
  dataDelete p w = (Ok r, w') ->
  (isArray (body p) = true -> isArray r = true)
  /\ (isObject (body p) = true -> isObject r = true /\ isArray r = false).
Proof.
  intros H.
  assert (isArray r = isArray (body p)
          /\ isObject r = negb (isArray (body p))) as [Ha Ho].
  { destruct H as [H|[H|H]].
    - now apply (dataInsert_shape p w w').
    - now apply (bulk_path_shape Hecho p w w').
    - now apply (bulk_path_shape Hecho p w w'). }
  rewrite Ha, Ho. split; [easy|].
  now destruct (body p).
Qed.

End Shapes.

(** ** The in-memory store keeps the contract of a bulk update *)

Lemma bulk_update_rows_echoes (pk : string) (records : list value) :
  forall rs echoes rs',
    Mem.bulk_update_rows pk records rs = Ok (echoes, rs') ->
    length echoes = length records.
Proof.
  induction records as [|record rest IH]; intros rs echoes rs' H.
  - now inversion H.
  - cbn [Mem.bulk_update_rows] in H.
    destruct record; try discriminate H.
    destruct (Mem.pk_key _) as [k|]; [|discriminate H].
    destruct (existsb _ rs); [|discriminate H].
    destruct (Mem.bulk_update_rows pk rest _) as [[echoes' rs'']|e] eqn:E;
      [|discriminate H].
    inversion H; subst. cbn [length]. f_equal. now apply (IH _ _ _ E).
Qed.

Lemma backend_echoes_each_record cfg where_filter order :
  echoes_each_record (C := Mem.backend cfg where_filter order).
Proof.
  intros bm records cookie w res w' H.
  cbn [bulkUpdate Mem.backend] in H. unfold Mem.mem_bulkUpdate in H.
  apply bind_Ok_inv in H as (t & w1 & _ & H).
  destruct (Mem.bulk_update_rows _ records _) as [[echoes rs]|e] eqn:E.
  - inversion H; subst. now apply (bulk_update_rows_echoes _ _ _ _ _ E).
  - discriminate H.
Qed.

Lemma C3_shape_witness :
  (isArray (VArr [VObj [("Id", VNum 1)]; VObj [("Id", VNum 2)]]) = true ->
   isArray (VArr [VObj [("Id", VStr "1")]; VObj [("Id", VStr "2")]]) = true)
  /\ (isObject (VObj [("Id", VNum 1)]) = true ->
      isObject (VObj [("Id", VStr "1")]) = true
      /\ isArray (VObj [("Id", VStr "1")]) = false).
Proof.
  split.
  - apply (C3_shape_is_preserved (C := Sample.sample)
             (backend_echoes_each_record _ _ _)
             (Sample.request None "" []
                (VArr [VObj [("Id", VNum 1)]; VObj [("Id", VNum 2)]]))
             Sample.world Sample.world).
    right. right. vm_compute. reflexivity.
  - apply (C3_shape_is_preserved (C := Sample.sample)
             (backend_echoes_each_record _ _ _)
             (Sample.request None "" [] (VObj [("Id", VNum 1)]))
             Sample.world Sample.world).
    right. left. vm_compute. reflexivity.
Defined.

(** ** A bulk update destroys no row *)

Lemma update_row_keeps_key (pk : string) (props row : obj) :
  get pk (Mem.update_row pk props row) = get pk row.
Proof.
  unfold Mem.update_row. induction row as [|[c v] row IH]; [reflexivity|].
  cbn [map get]. rewrite IH.
  destruct (String.eqb pk c) eqn:E.
  - apply String.eqb_eq in E as <-. rewrite String.eqb_refl, andb_false_r.
    cbn [get]. now rewrite String.eqb_refl.
  - destruct (has c props && negb (String.eqb c pk)); cbn [get];
      now rewrite E.
Qed.

(** The stored keys, in storage order, are the same after a bulk update:
    whatever the batch, every row that could be read before can be read
    afterwards. *)
Lemma bulk_update_rows_keeps_keys (pk : string) (records : list value) :
  forall rs echoes rs',
    Mem.bulk_update_rows pk records rs = Ok (echoes, rs') ->
    map (get pk) rs' = map (get pk) rs.
Proof.
  induction records as [|record rest IH]; intros rs echoes rs' H.
  - now inversion H.
  - cbn [Mem.bulk_update_rows] in H.
    destruct record; try discriminate H.
    destruct (Mem.pk_key _) as [k|]; [|discriminate H].
    destruct (existsb _ rs); [|discriminate H].
    destruct (Mem.bulk_update_rows pk rest _) as [[echoes' rs'']|e] eqn:E;
      [|discriminate H].
    inversion H; subst. rewrite (IH _ _ _ E), map_map.
    apply map_ext. intros r.
    destruct (Mem.has_key pk k r); [apply update_row_keeps_key|reflexivity].
Qed.

(** ** Deleting *)

(** The two service calls are the same function of the request. *)
Lemma dataDelete_is_dataUpdate {W : Type} `{C : Collaborators W}
  (p : Param) : dataDelete p = dataUpdate p.
Proof. reflexivity. Qed.

(** C1 (the code departs from it).  On the sample deployment, deleting the
    row with key 1 answers with the echo of the key and leaves the store as
    it was: reading row 1 afterwards returns the row instead of failing
    with [NotFound].  [dataDelete] runs the bulk update, as [dataUpdate]
    does. *)
Theorem C1_delete_leaves_the_row :
  dataDelete (Sample.request None "" [] (VArr [VObj [("Id", VNum 1)]]))
    Sample.world =
    (Ok (VArr [VObj [("Id", VStr "1")]]), Sample.world)
  /\ dataRead (Sample.request None "1" [] VNull) Sample.world =
       (Ok (Sample.text_row 1), Sample.world)
  /\ forall (W : Type) (C : Collaborators W) (p : Param),
       dataDelete p = dataUpdate p.
Proof.
  split; [vm_compute; reflexivity|].
  split; [vm_compute; reflexivity|].
  intros W C p. reflexivity.
Qed.

(** ** Listing on the in-memory store *)

Section Listing.

Import Mem.

Variable cfg : Config.
Variable where_filter : obj -> obj -> bool.
Variable order : option View -> obj -> list obj -> list obj.

#[local] Abbreviation B := (backend cfg where_filter order).
#[local] Abbreviation total_of := (total_of where_filter).

Lemma dataList_resolved (p : Param) (w w1 : World) model view :
  getModelAndView (C := B) p w = (Ok (model, view), w1) ->
  dataList (C := B) p w = mem_getDataList cfg where_filter order model view (query p) w1.
Proof. intros Eg. unfold dataList. now rewrite (bind_Ok _ _ _ _ _ Eg). Qed.

Lemma mem_getDataList_run model view (q : obj) (w : World) (t : Table) :
  tables w !! model_id model = Some t ->
  mem_getDataList cfg where_filter order model view q w =
    if offset_out_of_range q (total_of view q t)
    then (Throw (UnprocessableEntity
                   "Offset is beyond the total number of records"), w)
    else
      (Ok {| list_ :=
               project (effective_fields t view q) <$>
                 take (Z.to_nat (effective_limit cfg q))
                   (drop (Z.to_nat (effective_offset cfg q))
                      (order view q (matching where_filter view q t)));
             pageInfo :=
               paginate (effective_offset cfg q) (effective_limit cfg q)
                 (total_of view q t) |}, w).
Proof.
  intros Et. unfold mem_getDataList, table_of, bind. rewrite Et.
  unfold Mem.total_of. now destruct (offset_out_of_range q _).
Qed.

Lemma valid_bound_Some (v : value) (n : Z) :
  valid_bound v = Some n <-> numeric v = Some n /\ 0 <= n.
Proof.
  unfold valid_bound. destruct (numeric v) as [m|].
  - destruct (Z.leb_spec 0 m); split.
    + intros [= ->]. now split.
    + now intros [[= ->] _].
    + discriminate.
    + intros [[= ->] ?]. lia.
  - split; [discriminate|now intros [? _]].
Qed.

Lemma valid_bound_None (v : value) :
  valid_bound v = None <-> invalid_bound v.
Proof.
  unfold valid_bound, invalid_bound. destruct (numeric v) as [m|].
  - destruct (Z.leb_spec 0 m); split; try easy. lia.
  - easy.
Qed.

Lemma total_of_nonneg view q t : 0 <= total_of view q t.
Proof. unfold Mem.total_of. lia. Qed.

(** C6.  A list request whose [offset] and [limit] are valid (numeric,
    [0 <= offset <= totalRows], [0 < limit <= limitMax]) succeeds, and its
    page information is [totalRows], [page = floor(offset / limit) + 1],
    [pageSize = limit], [isFirstPage = (offset == 0)] and
    [isLastPage = (offset + limit >= totalRows)]. *)
Theorem C6_page_info (p : Param) (w w1 : World) model view (t : Table)
  (offset limit : Z) :
  getModelAndView (C := B) p w = (Ok (model, view), w1) ->
  tables w1 !! model_id model = Some t ->
  valid_bound (get "offset" (query p)) = Some offset ->
  valid_bound (get "limit" (query p)) = Some limit ->
  0 < limit <= limitMax cfg ->
  offset <= total_of view (query p) t ->
  exists rows,
    dataList (C := B) p w =
      (Ok {| list_ := rows;
             pageInfo :=
               {| totalRows := total_of view (query p) t;
                  page := offset / limit + 1;
                  pageSize := limit;
                  isFirstPage := (offset =? 0)%Z;
                  isLastPage :=
                    (total_of view (query p) t <=? offset + limit)%Z |} |},
       w1).
Proof.
  intros Eg Et Eo El Hl Ho.
  rewrite (dataList_resolved _ _ _ _ _ Eg), (mem_getDataList_run _ _ _ _ _ Et).
  unfold offset_out_of_range, effective_offset, effective_limit.
  rewrite Eo, El. cbn [default from_option id].
  assert ((total_of view (query p) t <? offset)%Z = false) as ->
    by (apply Z.ltb_ge; lia).
  rewrite Z.min_l by lia. unfold id. eexists. reflexivity.
Qed.

(** C7.  On a list request, a [limit] that is not numeric or is negative
    becomes the configured default (within the configured maximum) and such
    an [offset] becomes the configured default; the request then succeeds,
    as it does for every [offset] that is valid and within the total; a
    valid [offset] beyond the total ends the request with the
    unprocessable-entity error, not with a shortened or empty list. *)
Theorem C7_limit_and_offset_policy (p : Param) (w w1 : World) model view
  (t : Table) :
  getModelAndView (C := B) p w = (Ok (model, view), w1) ->
  tables w1 !! model_id model = Some t ->
  (invalid_bound (get "limit" (query p)) ->
   effective_limit cfg (query p) = Z.min (limitDefault cfg) (limitMax cfg))
  /\ (invalid_bound (get "offset" (query p)) ->
      effective_offset cfg (query p) = offsetDefault cfg)
  /\ (invalid_bound (get "offset" (query p))
      \/ (exists o, numeric (get "offset" (query p)) = Some o
                    /\ 0 <= o <= total_of view (query p) t) ->
      exists rows,
        dataList (C := B) p w =
          (Ok {| list_ := rows;
                 pageInfo :=
                   paginate (effective_offset cfg (query p))
                     (effective_limit cfg (query p))
                     (total_of view (query p) t) |}, w1))
  /\ (forall o,
        numeric (get "offset" (query p)) = Some o ->
        total_of view (query p) t < o ->
        dataList (C := B) p w =
          (Throw (UnprocessableEntity
                    "Offset is beyond the total number of records"), w1)).
Proof.
  intros Eg Et. split; [|split; [|split]].
  - intros H%valid_bound_None. unfold effective_limit. now rewrite H.
  - intros H%valid_bound_None. unfold effective_offset. now rewrite H.
  - intros H.
    rewrite (dataList_resolved _ _ _ _ _ Eg),
      (mem_getDataList_run _ _ _ _ _ Et).
    assert (offset_out_of_range (query p) (total_of view (query p) t) = false)
      as ->.
    { unfold offset_out_of_range. destruct H as [H|(o & Ho & Hr)].
      - apply valid_bound_None in H. now rewrite H.
      - assert (valid_bound (get "offset" (query p)) = Some o) as ->
          by (apply valid_bound_Some; split; [assumption|lia]).
        apply Z.ltb_ge. lia. }
    eexists. reflexivity.
  - intros o Ho Hlt.
    rewrite (dataList_resolved _ _ _ _ _ Eg),
      (mem_getDataList_run _ _ _ _ _ Et).
    unfold offset_out_of_range.
    assert (valid_bound (get "offset" (query p)) = Some o) as ->.
    { apply valid_bound_Some. split; [assumption|].
      pose proof (total_of_nonneg view (query p) t). lia. }
    now apply Z.ltb_lt in Hlt as ->.
Qed.

Lemma keys_project (fields : list string) (row : obj) :
  keys (project fields row) = fields.
Proof.
  unfold keys, project. induction fields as [|f fs IH]; [reflexivity|].
  cbn. f_equal. exact IH.
Qed.

Lemma elem_In (c : string) (fs : list string) : elem c fs = true <-> In c fs.
Proof.
  unfold elem. rewrite existsb_exists. split.
  - intros (x & Hx & E). apply String.eqb_eq in E. now subst.
  - intros H. exists c. split; [assumption|apply String.eqb_refl].
Qed.

Lemma effective_fields_spec (t : Table) view (q : obj) (f : string) :
  In f (effective_fields t view q) ->
  In f (columns t)
  /\ ~ In f (hidden_of view)
  /\ (forall fs, requested_fields q = Some fs -> In f fs).
Proof.
  unfold effective_fields. rewrite filter_In.
  intros (Hc & H). apply andb_prop in H as [Hh Hr].
  split; [assumption|]. split.
  - intros Hin%elem_In. now rewrite Hin in Hh.
  - intros fs E. rewrite E in Hr. now apply elem_In.
Qed.

(** C8.  On a list request bound to a view, no field of the view's
    hidden-field set is a field of a returned row, whatever the [fields] of
    the request; every field of a returned row is a column of the table,
    and is one of the requested fields when the request names fields. *)
Theorem C8_hidden_fields_stay_hidden (p : Param) (w w1 w' : World) model
  (view : View) (resp : PagedResponse) :
  getModelAndView (C := B) p w = (Ok (model, Some view), w1) ->
  dataList (C := B) p w = (Ok resp, w') ->
  forall row, In row (list_ resp) ->
    (forall f, In f (view_hidden view) -> ~ In f (keys row))
    /\ (forall f fs, In f (keys row) ->
                     requested_fields (query p) = Some fs -> In f fs).
Proof.
  intros Eg Hl row Hrow.
  rewrite (dataList_resolved _ _ _ _ _ Eg) in Hl.
  unfold mem_getDataList in Hl.
  apply bind_Ok_inv in Hl as (t & w2 & _ & Hl).
  destruct (offset_out_of_range _ _); [discriminate Hl|].
  inversion Hl; subst; clear Hl. cbn [list_] in Hrow.
  apply in_map_iff in Hrow as (r & <- & _). rewrite keys_project.
  split.
  - intros f Hh Hf. now apply effective_fields_spec in Hf as (_ & Hn & _).
  - intros f fs Hf E. apply effective_fields_spec in Hf as (_ & _ & Hr).
    now apply Hr.
Qed.

End Listing.

Lemma C6_page_info_witness :
  exists rows,
    dataList
      (Sample.request None ""
         [("offset", VStr "200"); ("limit", VStr "100")] VNull)
      Sample.world =
      (Ok {| list_ := rows;
             pageInfo :=
               {| totalRows := 400; page := 3; pageSize := 100;
                  isFirstPage := false; isLastPage := false |} |},
       Sample.world).
Proof.
  apply (C6_page_info Sample.cfg Sample.no_where Sample.stored_order
           (Sample.request None ""
              [("offset", VStr "200"); ("limit", VStr "100")] VNull)
           Sample.world Sample.world Sample.table None Sample.textBased
           200 100).
  - vm_compute. reflexivity.
  - vm_compute. reflexivity.
  - vm_compute. reflexivity.
  - vm_compute. reflexivity.
  - cbn. lia.
  - vm_compute. discriminate.
Defined.

Lemma C7_limit_and_offset_witness :
  Mem.effective_limit Sample.cfg [("limit", VStr "-100")] = 25
  /\ Mem.effective_offset Sample.cfg [("offset", VStr "abc")] = 0
  /\ (exists rows,
        dataList (Sample.request None "" [("offset", VStr "abc")] VNull)
          Sample.world =
          (Ok {| list_ := rows;
                 pageInfo :=
                   {| totalRows := 400; page := 1; pageSize := 25;
                      isFirstPage := true; isLastPage := false |} |},
           Sample.world))
  /\ dataList (Sample.request None "" [("offset", VStr "10000")] VNull)
       Sample.world =
       (Throw (UnprocessableEntity
                 "Offset is beyond the total number of records"),
        Sample.world).
Proof.
  split; [|split; [|split]].
  - apply (proj1 (C7_limit_and_offset_policy
             Sample.cfg Sample.no_where Sample.stored_order
             (Sample.request None "" [("limit", VStr "-100")] VNull)
             Sample.world Sample.world Sample.table None Sample.textBased
             ltac:(vm_compute; reflexivity) ltac:(vm_compute; reflexivity))).
    vm_compute. reflexivity.
  - apply (proj1 (proj2 (C7_limit_and_offset_policy
             Sample.cfg Sample.no_where Sample.stored_order
             (Sample.request None "" [("offset", VStr "abc")] VNull)
             Sample.world Sample.world Sample.table None Sample.textBased
             ltac:(vm_compute; reflexivity) ltac:(vm_compute; reflexivity)))).
    vm_compute. exact I.
  - apply (proj1 (proj2 (proj2 (C7_limit_and_offset_policy
             Sample.cfg Sample.no_where Sample.stored_order
             (Sample.request None "" [("offset", VStr "abc")] VNull)
             Sample.world Sample.world Sample.table None Sample.textBased
             ltac:(vm_compute; reflexivity) ltac:(vm_compute; reflexivity))))).
    left. vm_compute. exact I.
  - apply (proj2 (proj2 (proj2 (C7_limit_and_offset_policy
             Sample.cfg Sample.no_where Sample.stored_order
             (Sample.request None "" [("offset", VStr "10000")] VNull)
             Sample.world Sample.world Sample.table None Sample.textBased
             ltac:(vm_compute; reflexivity) ltac:(vm_compute; reflexivity))))
             10000).
    + vm_compute. reflexivity.
    + vm_compute. reflexivity.
Defined.

Lemma C8_hidden_fields_witness :
  exists resp,
    dataList
      (Sample.request (Some "vw_grid") ""
         [("fields",
           VArr [VStr "Phone"; VStr "MultiLineText"; VStr "SingleLineText";
                 VStr "Email"]);
          ("limit", VStr "100")] VNull)
      Sample.world = (Ok resp, Sample.world)
    /\ forall row, In row (list_ resp) ->
         (forall f, In f ["MultiLineText"; "Email"] -> ~ In f (keys row))
         /\ (forall f fs,
               In f (keys row) ->
               Mem.requested_fields
                 [("fields",
                   VArr [VStr "Phone"; VStr "MultiLineText";
                         VStr "SingleLineText"; VStr "Email"]);
                  ("limit", VStr "100")] = Some fs ->
               In f fs).
Proof.
  eexists. split.
  - vm_compute. reflexivity.
  - apply (C8_hidden_fields_stay_hidden
             Sample.cfg Sample.no_where Sample.stored_order
             (Sample.request (Some "vw_grid") ""
                [("fields",
                  VArr [VStr "Phone"; VStr "MultiLineText";
                        VStr "SingleLineText"; VStr "Email"]);
                 ("limit", VStr "100")] VNull)
             Sample.world Sample.world Sample.world Sample.table
             Sample.gridView).
    + vm_compute. reflexivity.
    + vm_compute. reflexivity.
Defined.

(** ** The sample deployment against the unit tests *)

(** 'List: default': the first page of 25 among 400 rows. *)
Example list_default :
  (fun r => match r with
            | (Ok resp, _) => Some (pageInfo resp, length (list_ resp))
            | _ => None
            end)
    (dataList (Sample.request None "" [] VNull) Sample.world) =
  Some ({| totalRows := 400; page := 1; pageSize := 25;
           isFirstPage := true; isLastPage := false |}, 25%nat).
Proof. vm_compute. reflexivity. Qed.

(** 'List: view ID + fields': the hidden fields are left out. *)
Example list_view_fields :
  (fun r => match r with
            | (Ok resp, _) => keys <$> head (list_ resp)
            | _ => None
            end)
    (dataList
       (Sample.request (Some "vw_grid") ""
          [("fields",
            VArr [VStr "Phone"; VStr "MultiLineText"; VStr "SingleLineText";
                  VStr "Email"])] VNull)
       Sample.world) =
  Some ["SingleLineText"; "Phone"].
Proof. vm_compute. reflexivity. Qed.

(** 'Create: bulk': three echoes, in input order. *)
Example create_bulk :
  fst (dataInsert
         (Sample.request None "" []
            (VArr [VObj [("SingleLineText", VStr "abc")];
                   VObj [("SingleLineText", VStr "abc")];
                   VObj [("SingleLineText", VStr "abc")]]))
         Sample.world) =
  Ok (VArr [VObj [("Id", VNum 401)]; VObj [("Id", VNum 402)];
            VObj [("Id", VNum 403)]]).
Proof. vm_compute. reflexivity. Qed.

(** 'Update: bulk' and 'Update: invalid ID'. *)
Example update_bulk :
  fst (dataUpdate
         (Sample.request None "" []
            (VArr [VObj [("Id", VNum 1); ("SingleLineText", VStr "some text")];
                   VObj [("Id", VNum 2); ("SingleLineText", VStr "some text")]]))
         Sample.world) =
  Ok (VArr [VObj [("Id", VStr "1")]; VObj [("Id", VStr "2")]])
  /\ fst (dataUpdate
            (Sample.request None "" []
               (VObj [("Id", VNum 123456789);
                      ("SingleLineText", VStr "some text")]))
            Sample.world) =
     Throw (UnprocessableEntity "Record not found").
Proof. split; vm_compute; reflexivity. Qed.

(** * Further properties of the service *)

(** ** The resolution step, case by case *)

Section ResolutionCases.

Context {W : Type} `{C : Collaborators W}.

Lemma project_check_fails (p : Param) (model : Model) (pid : string) :
  projectId p = Some pid -> pid <> "" -> pid <> project_id model ->
  truthy (projectId p)
  && negb (bool_decide (Some (project_id model) = projectId p)) = true.
Proof.
  intros -> Hne Hd. cbn [truthy].
  assert (String.eqb pid "" = false) as -> by now apply String.eqb_neq.
  rewrite bool_decide_eq_false_2; [reflexivity|].
  intros [= E]. now apply Hd.
Qed.

Lemma project_check_decides (p : Param) (model : Model) :
  truthy (projectId p)
  && negb (bool_decide (Some (project_id model) = projectId p)) = true ->
  ~ project_ok p model.
Proof.
  intros H [Hf|He].
  - now rewrite Hf in H.
  - rewrite He, bool_decide_eq_true_2, andb_false_r in H by reflexivity.
    discriminate H.
Qed.

(** X1.  A request that names a project other than the table's ends, in
    each of the six operations, with the plain error 'Model not belong to
    project'; the view is not looked up: the world is the one the table
    lookup left. *)
Theorem project_mismatch_is_plain_error (op : operation) (p : Param)
  (w w1 : W) (model : Model) (pid : string) :
  Model_get (modelId p) w = (Ok (Some model), w1) ->
  projectId p = Some pid -> pid <> "" -> pid <> project_id model ->
  handle op p w = (Throw (JsError "Model not belong to project"), w1).
Proof.
  intros Em Hp Hne Hd. apply handle_getModelAndView_Throw.
  unfold getModelAndView. rewrite (bind_Ok _ _ _ _ _ Em). cbn [bind ret].
  now rewrite (project_check_fails p model pid).
Qed.

Lemma getModelAndView_empty_viewId (p : Param) (w : W) :
  viewId p = Some "" ->
  getModelAndView p w = getModelAndView (with_viewId None p) w.
Proof. intros H. unfold getModelAndView. rewrite H. reflexivity. Qed.

(** X2.  An empty [viewId] is no [viewId]: each of the six operations
    answers, fails and changes the world exactly as it does for the same
    request without a view. *)
Theorem empty_viewId_is_no_view (op : operation) (p : Param) (w : W) :
  viewId p = Some "" ->
  handle op p w = handle op (with_viewId None p) w.
Proof.
  intros H. pose proof (getModelAndView_empty_viewId p w H) as E.
  destruct op; unfold handle;
    [unfold dataList | unfold dataRead | unfold dataCount
    | unfold dataInsert | unfold dataUpdate | unfold dataDelete];
    cbn [with_viewId rowId query body cookie modelId];
    unfold bind at 1; unfold bind at 1; rewrite E;
    reflexivity.
Qed.

(** X3.  The resolution step succeeds with [(model, view)] exactly when the
    table lookup gives [model], the project check lets it through, and
    either the request names no view (then [view] is absent and no view is
    looked up) or the named view resolves to a view whose table reference is
    absent, empty or the requested table's. *)
Theorem resolution_succeeds_iff (p : Param) (w w' : W) (model : Model)
  (view : option View) :
  getModelAndView p w = (Ok (model, view), w') <->
  exists w1,
    Model_get (modelId p) w = (Ok (Some model), w1)
    /\ project_ok p model
    /\ ((truthy (viewId p) = false /\ view = None /\ w' = w1)
        \/ (exists vid v,
              viewId p = Some vid /\ vid <> ""
              /\ View_get vid w1 = (Ok (Some v), w')
              /\ view = Some v
              /\ (truthy (fk_model_id v) = false
                  \/ fk_model_id v = Some (modelId p)))).
Proof.
  split; [apply getModelAndView_Ok_inv|].
  intros (w1 & Em & Hp & [(Hv & -> & ->)|(vid & v & Hv & Hne & Ev & -> & Hfk)]).
  - now apply getModelAndView_no_viewId.
  - rewrite (getModelAndView_view p w w1 w' model vid (Some v)) by assumption.
    destruct Hfk as [Hfk|Hfk].
    + now rewrite Hfk.
    + rewrite Hfk, bool_decide_eq_true_2 by reflexivity.
      now rewrite andb_false_r.
Qed.

(** X4.  Every failure of the resolution step is one of four, tried in
    this order: the error of the table lookup itself or [NotFound] 'Model
    not found'; the plain error of the project check; the error of the view
    lookup itself; the unprocessable-entity error for a view that is
    unknown or refers to another table.  It raises no other error. *)
Theorem resolution_fails_only_so (p : Param) (w w' : W) (e : NcErr) :
  getModelAndView p w = (Throw e, w') ->
  Model_get (modelId p) w = (Throw e, w')
  \/ (Model_get (modelId p) w = (Ok None, w')
      /\ e = NotFound "Model not found")
  \/ (exists model,
        Model_get (modelId p) w = (Ok (Some model), w')
        /\ ~ project_ok p model
        /\ e = JsError "Model not belong to project")
  \/ (exists model w1 vid,
        Model_get (modelId p) w = (Ok (Some model), w1)
        /\ project_ok p model
        /\ viewId p = Some vid /\ vid <> ""
        /\ (View_get vid w1 = (Throw e, w')
            \/ (e = UnprocessableEntity "View not belong to model"
                /\ (View_get vid w1 = (Ok None, w')
                    \/ exists v,
                         View_get vid w1 = (Ok (Some v), w')
                         /\ truthy (fk_model_id v) = true
                         /\ fk_model_id v <> Some (modelId p))))).
Proof.
  unfold getModelAndView. intros H.
  apply bind_Throw_inv in H as [H|(m & w1 & Em & H)]; [now left|].
  destruct m as [model|].
  2: { right. left. cbn in H. inversion H; subst. now split. }
  cbn [bind ret] in H.
  destruct (truthy (projectId p)
            && negb (bool_decide (Some (project_id model) = projectId p)))
    eqn:Hp.
  { right. right. left. cbn in H. inversion H; subst.
    exists model. split; [assumption|]. split; [|reflexivity].
    now apply project_check_decides. }
  assert (project_ok p model) as Hok.
  { destruct (truthy (projectId p)) eqn:Ht; [|now left].
    right. cbn [andb] in Hp. apply negb_false_iff in Hp.
    now apply bool_decide_eq_true_1 in Hp. }
  cbn [bind ret] in H.
  apply bind_Throw_inv in H as [H|(v & w2 & _ & H)]; [|discriminate H].
  right. right. right.
  destruct (viewId p) as [vid|] eqn:Hv; [|discriminate H].
  cbn [truthy default from_option] in H.
  destruct (String.eqb vid "") eqn:Hne; [discriminate H|].
  apply String.eqb_neq in Hne. cbn [negb] in H. unfold id in H.
  exists model, w1, vid. repeat (split; [first [assumption|reflexivity]|]).
  apply bind_Throw_inv in H as [H|(v & w2 & Ev & H)]; [now left|].
  right. destruct v as [v|].
  - destruct (truthy (fk_model_id v)) eqn:Ht; cbn [andb] in H.
    + destruct (bool_decide (fk_model_id v = _)) eqn:Hd; cbn in H;
        [discriminate H|].
      apply bool_decide_eq_false_1 in Hd.
      inversion H; subst. split; [reflexivity|]. right. now exists v.
    + cbn in H. discriminate H.
  - cbn in H. inversion H; subst. split; [reflexivity|]. now left.
Qed.

End ResolutionCases.

Lemma project_mismatch_witness :
  handle OpInsert
    (with_projectId (Some "p2")
       (Sample.request None "" [] (VObj [("SingleLineText", VStr "abc")])))
    Sample.world =
    (Throw (JsError "Model not belong to project"), Sample.world).
Proof.
  apply (project_mismatch_is_plain_error OpInsert
           (with_projectId (Some "p2")
              (Sample.request None "" []
                 (VObj [("SingleLineText", VStr "abc")])))
           Sample.world Sample.world Sample.table "p2").
  - vm_compute. reflexivity.
  - reflexivity.
  - discriminate.
  - discriminate.
Defined.

Lemma empty_viewId_witness :
  handle OpCount (Sample.request (Some "") "" [] VNull) Sample.world =
  handle OpCount (with_viewId None (Sample.request (Some "") "" [] VNull))
    Sample.world.
Proof.
  apply (empty_viewId_is_no_view OpCount
           (Sample.request (Some "") "" [] VNull) Sample.world).
  reflexivity.
Defined.

Lemma resolution_fails_only_so_witness :
  let p := Sample.request (Some "123456789") "" [] VNull in
  let e := UnprocessableEntity "View not belong to model" in
  Model_get (modelId p) Sample.world = (Throw e, Sample.world)
  \/ (Model_get (modelId p) Sample.world = (Ok None, Sample.world)
      /\ e = NotFound "Model not found")
  \/ (exists model,
        Model_get (modelId p) Sample.world = (Ok (Some model), Sample.world)
        /\ ~ project_ok p model
        /\ e = JsError "Model not belong to project")
  \/ (exists model w1 vid,
        Model_get (modelId p) Sample.world = (Ok (Some model), w1)
        /\ project_ok p model
        /\ viewId p = Some vid /\ vid <> ""
        /\ (View_get vid w1 = (Throw e, Sample.world)
            \/ (e = UnprocessableEntity "View not belong to model"
                /\ (View_get vid w1 = (Ok None, Sample.world)
                    \/ exists v,
                         View_get vid w1 = (Ok (Some v), Sample.world)
                         /\ truthy (fk_model_id v) = true
                         /\ fk_model_id v <> Some (modelId p))))).
Proof.
  apply (resolution_fails_only_so
           (Sample.request (Some "123456789") "" [] VNull)
           Sample.world Sample.world
           (UnprocessableEntity "View not belong to model")).
  vm_compute. reflexivity.
Defined.

(** ** The arguments of the count query *)

Section CountArguments.

Context {W : Type} `{C : Collaborators W}.

Lemma get_set_eq (k : string) (v : value) (o : obj) :
  get k (set k v o) = v.
Proof.
  induction o as [|[k' v'] o IH]; cbn [set get].
  - now rewrite String.eqb_refl.
  - destruct (String.eqb k k') eqn:E; cbn [get]; rewrite ?String.eqb_refl.
    + reflexivity.
    + now rewrite E.
Qed.

Lemma get_set_ne (k k' : string) (v : value) (o : obj) :
  k' <> k -> get k' (set k v o) = get k' o.
Proof.
  intros Hne. apply String.eqb_neq in Hne.
  induction o as [|[k0 v0] o IH]; cbn [set get].
  - now rewrite Hne.
  - destruct (String.eqb k k0) eqn:E; cbn [get].
    + apply String.eqb_eq in E as <-. now rewrite Hne.
    + now rewrite IH.
Qed.

Lemma keys_set (k : string) (v : value) (o : obj) :
  keys (set k v o) = if has k o then keys o else (keys o ++ [k])%list.
Proof.
  unfold keys, has. induction o as [|[k' v'] o IH]; [reflexivity|].
  cbn [set existsb fst]. destruct (String.eqb k k') eqn:E; cbn.
  - apply String.eqb_eq in E as <-. reflexivity.
  - rewrite IH. now destruct (existsb _ o).
Qed.

(** X5.  When [filterArrJson] parses, the count query receives the parsed
    value as [filterArr], in place of any [filterArr] the request carried,
    and receives every other query parameter unchanged ([filterArrJson]
    itself included); no parameter is dropped and at most [filterArr] is
    added. *)
Theorem countArgs_parsed_filter (q : obj) (v : value) :
  JSON_parse (toString (get "filterArrJson" q)) = Some v ->
  get "filterArr" (countArgs q) = v
  /\ (forall k, k <> "filterArr" -> get k (countArgs q) = get k q)
  /\ keys (countArgs q) =
       if has "filterArr" q then keys q else (keys q ++ ["filterArr"])%list.
Proof.
  intros E. unfold countArgs, spread. rewrite E.
  split; [apply get_set_eq|]. split; [|apply keys_set].
  intros k Hk. now apply get_set_ne.
Qed.

End CountArguments.

Lemma countArgs_parsed_filter_witness :
  let q := [("where", VStr "(Phone,eq,1)"); ("filterArr", VStr "x");
            ("filterArrJson", VStr "[{}]")] in
  get "filterArr" (countArgs (C := Sample.sample) q) = VArr [VObj []]
  /\ (forall k, k <> "filterArr" ->
                get k (countArgs (C := Sample.sample) q) = get k q)
  /\ keys (countArgs (C := Sample.sample) q) =
       if has "filterArr" q then keys q else (keys q ++ ["filterArr"])%list.
Proof.
  apply (countArgs_parsed_filter (C := Sample.sample)
           [("where", VStr "(Phone,eq,1)"); ("filterArr", VStr "x");
            ("filterArrJson", VStr "[{}]")] (VArr [VObj []])).
  vm_compute. reflexivity.
Defined.

(** ** Connection failures, reads and single updates *)

Section RowOperations.

Context {W : Type} `{C : Collaborators W}.

(** X6.  When the base model cannot be obtained (the base lookup, the
    connection manager or [Model.getBaseModelSQL] throws), read, count,
    insert, update and delete end with that very error in the world the
    failing step left, so that no row operation has run; a list request does
    not ask for a connection and goes on to the list service. *)
Theorem connection_failure_reaches_the_caller (op : operation) (p : Param)
  (w w1 w2 : W) (model : Model) (view : option View) (e : NcErr) :
  getModelAndView p w = (Ok (model, view), w1) ->
  getBaseModel model view w1 = (Throw e, w2) ->
  match op with
  | OpList =>
      handle op p w =
        bind (getDataList model view (query p))
          (fun r => ret (ListResponse r)) w1
  | _ => handle op p w = (Throw e, w2)
  end.
Proof.
  intros Eg Eb.
  destruct op; unfold handle;
    [unfold dataList | unfold dataRead | unfold dataCount
    | unfold dataInsert | unfold dataUpdate | unfold dataDelete];
    unfold bind at 1; unfold bind at 1; rewrite Eg; cbn beta iota;
    try reflexivity;
    rewrite with_getBaseModel; unfold bind at 1; now rewrite Eb.
Qed.

(** X7.  A read answers only with a row the row lookup returned: when
    [dataRead] gives [row], the resolution step succeeded, the base model
    was obtained for the table's own identifier and the resolved view's,
    and [readByPk] returned exactly [row] for the request's [rowId] and
    query; the world is the one that lookup left. *)
Theorem read_answers_the_looked_up_row (p : Param) (w w' : W) (row : obj) :
  dataRead p w = (Ok row, w') ->
  exists model view w1 base w2 dbDriver w3 bm w4,
    getModelAndView p w = (Ok (model, view), w1)
    /\ Base_get (base_id model) w1 = (Ok base, w2)
    /\ NcConnectionMgrv2_get base w2 = (Ok dbDriver, w3)
    /\ Model_getBaseModelSQL (model_id model) (view_id <$> view) dbDriver w3
       = (Ok bm, w4)
    /\ readByPk bm (rowId p) false (query p) w4 = (Ok (Some row), w').
Proof.
  unfold dataRead. intros H.
  apply bind_Ok_inv in H as ([model view] & w1 & Eg & H).
  apply bind_Ok_inv in H as (base & w2 & E1 & H).
  apply bind_Ok_inv in H as (dbDriver & w3 & E2 & H).
  apply bind_Ok_inv in H as (bm & w4 & E3 & H).
  apply bind_Ok_inv in H as (r & w5 & E4 & H).
  destruct r as [r|]; [|discriminate H]. inversion H; subst.
  exists model, view, w1, base, w2, dbDriver, w3, bm, w4.
  repeat (split; [assumption|]). assumption.
Qed.

(** X8.  Whatever the bulk update returns, an update or a delete with a
    body that is not an array answers with the first echo alone, or with
    [undefined] when the bulk update returned no echo; it never answers
    with an array. *)
Theorem single_update_answers_first_echo (p : Param) (w w' : W) (r : value) :
  isArray (body p) = false ->
  dataUpdate p w = (Ok r, w') \/ dataDelete p w = (Ok r, w') ->
  isArray r = false
  /\ exists model view w1 bm w2 res,
       getModelAndView p w = (Ok (model, view), w1)
       /\ getBaseModel model view w1 = (Ok bm, w2)
       /\ bulkUpdate bm [body p] (cookie p) w2 = (Ok res, w')
       /\ r = match res with
              | [] => VUndefined
              | echo :: _ => VObj echo
              end.
Proof.
  intros Hb H.
  assert (dataUpdate p w = (Ok r, w')) as H' by now destruct H.
  clear H. unfold dataUpdate in H'.
  apply bind_Ok_inv in H' as ([model view] & w1 & Eg & H).
  rewrite with_getBaseModel in H.
  apply bind_Ok_inv in H as (bm & w2 & Eb & H).
  apply bind_Ok_inv in H as (res & w3 & Er & H).
  inversion H; subst; clear H.
  rewrite (asBatch_single _ Hb) in Er. unfold unBatch. rewrite Hb.
  split; [now destruct res|].
  exists model, view, w1, bm, w2, res. repeat (split; [assumption|]).
  now destruct res.
Qed.

End RowOperations.

Lemma connection_failure_witness :
  handle OpRead (Sample.request None "1" [] VNull) Outage.world =
    (Throw (ConnectivityFailure "Backing store unreachable"), Outage.world)
  /\ exists r,
       handle OpList (Sample.request None "1" [] VNull) Outage.world =
         (Ok (ListResponse r), Outage.world).
Proof.
  split.
  - apply (connection_failure_reaches_the_caller (C := Sample.sample) OpRead
             (Sample.request None "1" [] VNull)
             Outage.world Outage.world Outage.world Sample.table None
             (ConnectivityFailure "Backing store unreachable"));
      vm_compute; reflexivity.
  - eexists.
    rewrite (connection_failure_reaches_the_caller (C := Sample.sample) OpList
               (Sample.request None "1" [] VNull)
               Outage.world Outage.world Outage.world Sample.table None
               (ConnectivityFailure "Backing store unreachable")
               ltac:(vm_compute; reflexivity) ltac:(vm_compute; reflexivity)).
    vm_compute. reflexivity.
Defined.

Lemma read_answers_witness :
  exists model view w1 base w2 dbDriver w3 bm w4,
    getModelAndView (Sample.request None "1" [] VNull) Sample.world =
      (Ok (model, view), w1)
    /\ Base_get (base_id model) w1 = (Ok base, w2)
    /\ NcConnectionMgrv2_get base w2 = (Ok dbDriver, w3)
    /\ Model_getBaseModelSQL (model_id model) (view_id <$> view) dbDriver w3
       = (Ok bm, w4)
    /\ readByPk bm "1" false [] w4 = (Ok (Some (Sample.text_row 1)), Sample.world).
Proof.
  apply (read_answers_the_looked_up_row (C := Sample.sample)
           (Sample.request None "1" [] VNull) Sample.world Sample.world
           (Sample.text_row 1)).
  vm_compute. reflexivity.
Defined.

Lemma single_update_witness :
  isArray (VObj [("Id", VStr "1")]) = false
  /\ exists model view w1 bm w2 res,
       getModelAndView (Sample.request None "" [] (VObj [("Id", VNum 1)]))
         Sample.world = (Ok (model, view), w1)
       /\ getBaseModel model view w1 = (Ok bm, w2)
       /\ bulkUpdate bm [VObj [("Id", VNum 1)]] VNull w2 = (Ok res, Sample.world)
       /\ VObj [("Id", VStr "1")] =
            match res with
            | [] => VUndefined
            | echo :: _ => VObj echo
            end.
Proof.
  apply (single_update_answers_first_echo (C := Sample.sample)
           (Sample.request None "" [] (VObj [("Id", VNum 1)]))
           Sample.world Sample.world (VObj [("Id", VStr "1")])).
  - reflexivity.
  - right. vm_compute. reflexivity.
Defined.

(** A view that names no table is accepted for the table [TextBased]. *)
Example free_view_is_accepted :
  fst (getModelAndView (Sample.request (Some "vw_free") "" [] VNull)
         Outage.world) = Ok (Sample.table, Some Outage.freeView).
Proof. vm_compute. reflexivity. Qed.

(** * Properties of the test helpers *)

(** ** Sorting *)

Section Sorting.

Import NewDataApisTest.

Lemma ascii_compare_trans (x y z : ascii) :
  (Ascii.compare x y = Eq ->
   Ascii.compare x z = Ascii.compare y z)
  /\ (Ascii.compare x y = Lt -> Ascii.compare y z <> Gt ->
      Ascii.compare x z = Lt).
Proof.
  unfold Ascii.compare. split.
  - intros E. apply N.compare_eq_iff in E. now rewrite E.
  - intros E1 E2.
    change (N_of_ascii x < N_of_ascii y)%N in E1.
    change (N_of_ascii y <= N_of_ascii z)%N in E2.
    change (N_of_ascii x < N_of_ascii z)%N. lia.
Qed.

Lemma str_leb_trans (a b c : string) :
  String.leb a b = true -> String.leb b c = true -> String.leb a c = true.
Proof.
  unfold String.leb. revert b c.
  induction a as [|x a IH]; intros [|y b] [|z c]; cbn [String.compare];
    try easy.
  destruct (ascii_compare_trans x y z) as [Heq Hlt].
  destruct (Ascii.compare x y) eqn:Exy; [| |easy].
  - rewrite (Heq eq_refl).
    destruct (Ascii.compare y z); [apply IH|easy|easy].
  - intros _ H. rewrite Hlt; [reflexivity|reflexivity|].
    now destruct (Ascii.compare y z).
Qed.

#[local] Instance str_le_trans : Transitive str_le.
Proof. intros a b c. apply str_leb_trans. Qed.

#[local] Instance str_le_antisym : AntiSymm (=) str_le.
Proof. intros a b. apply String.leb_antisym. Qed.

Lemma sorted_insert_perm {A} (le : A -> A -> bool) (x : A) (l : list A) :
  sorted_insert le x l ≡ₚ x :: l.
Proof.
  induction l as [|y l IH]; cbn [sorted_insert]; [reflexivity|].
  destruct (le x y); [reflexivity|].
  rewrite IH. apply Permutation_swap.
Qed.

Lemma sort_by_perm {A} (le : A -> A -> bool) (l : list A) :
  sort_by le l ≡ₚ l.
Proof.
  unfold sort_by. induction l as [|x l IH]; cbn [foldr]; [reflexivity|].
  now rewrite sorted_insert_perm, IH.
Qed.

Lemma sorted_insert_sorted (x : string) (l : list string) :
  Sorted str_le l -> Sorted str_le (sorted_insert String.leb x l).
Proof.
  induction l as [|y l IH]; cbn [sorted_insert]; intros Hs.
  - repeat constructor.
  - destruct (String.leb x y) eqn:E.
    + constructor; [assumption|]. now constructor.
    + assert (str_le y x) as Hyx
        by (destruct (String.leb_total x y) as [H|H]; [congruence|exact H]).
      inversion Hs as [|? ? Hs' Hhd]; subst.
      constructor; [now apply IH|].
      destruct l as [|y' l]; cbn [sorted_insert].
      * now constructor.
      * destruct (String.leb x y'); constructor; [assumption|].
        now inversion Hhd.
Qed.

Lemma sort_sorted (l : list string) : Sorted str_le (sort l).
Proof.
  unfold sort, sort_by. induction l as [|x l IH]; cbn [foldr].
  - constructor.
  - now apply sorted_insert_sorted.
Qed.

(** Two arrays with the same elements sort to the same array. *)
Lemma sort_perm_eq (l1 l2 : list string) : l1 ≡ₚ l2 -> sort l1 = sort l2.
Proof.
  intros H. apply (Sorted_unique str_le); try apply sort_sorted.
  unfold sort. now rewrite !sort_by_perm.
Qed.

Lemma sort_eq_perm (l1 l2 : list string) : sort l1 = sort l2 -> l1 ≡ₚ l2.
Proof.
  intros H. unfold sort in H.
  rewrite <- (sort_by_perm String.leb l1), H. apply sort_by_perm.
Qed.

End Sorting.

(** ** Joining titles *)

Section Joining.

Import NewDataApisTest.

Lemma has_comma_app (a b : string) :
  has_comma (a ++ b) = has_comma a || has_comma b.
Proof.
  induction a as [|c a IH]; [reflexivity|].
  change (has_comma (String c a ++ b))
    with (Ascii.eqb c "," || has_comma (a ++ b)).
  rewrite IH. cbn [has_comma]. apply orb_assoc.
Qed.

Lemma append_comma_inj (x y r1 r2 : string) :
  has_comma x = false -> has_comma y = false ->
  (x ++ "," ++ r1)%string = (y ++ "," ++ r2)%string -> x = y /\ r1 = r2.
Proof.
  revert y. induction x as [|a x IH]; intros [|b y] Hx Hy E; cbn in *.
  - now inversion E.
  - inversion E; subst. now rewrite Ascii.eqb_refl in Hy.
  - inversion E; subst. now rewrite Ascii.eqb_refl in Hx.
  - inversion E; subst.
    apply orb_false_elim in Hx as [_ Hx]. apply orb_false_elim in Hy as [_ Hy].
    destruct (IH y Hx Hy) as [-> ->]; [assumption|now split].
Qed.

Lemma plain_not_joined (x y r : string) :
  has_comma x = false -> x <> (y ++ "," ++ r)%string.
Proof.
  intros Hx ->. rewrite has_comma_app in Hx. cbn in Hx.
  now rewrite orb_true_r in Hx.
Qed.

Lemma join_cons_nonempty (x : string) (l : list string) :
  x <> "" -> join "," (x :: l) <> "".
Proof.
  intros Hx. unfold join. cbn [String.concat].
  destruct l; [assumption|]. now destruct x.
Qed.

(** On plain titles the joined text determines the array. *)
Lemma join_inj (l1 l2 : list string) :
  Forall plain_title l1 -> Forall plain_title l2 ->
  join "," l1 = join "," l2 -> l1 = l2.
Proof.
  revert l2. induction l1 as [|x l1 IH]; intros [|y l2] H1 H2 E.
  - reflexivity.
  - inversion H2 as [|? ? [Hy _] _]; subst.
    symmetry in E. now apply join_cons_nonempty in E.
  - inversion H1 as [|? ? [Hx _] _]; subst.
    now apply join_cons_nonempty in E.
  - inversion H1 as [|? ? [_ Hx] H1']; subst.
    inversion H2 as [|? ? [_ Hy] H2']; subst.
    unfold join in *. cbn [String.concat] in E.
    destruct l1 as [|x' l1], l2 as [|y' l2].
    + now subst.
    + now apply plain_not_joined in E.
    + symmetry in E. now apply plain_not_joined in E.
    + apply append_comma_inj in E as [-> E]; try assumption.
      f_equal. now apply IH.
Qed.

End Joining.

(** ** [verifyColumnsInRsp] *)

Section VerifyColumns.

Import NewDataApisTest.

(** X11.  [verifyColumnsInRsp] does not look at the order of the fields of
    the row nor at the order of the columns: rearranging either gives the
    same verdict. *)
Theorem verifyColumnsInRsp_ignores_order (row row' : obj)
  (columns columns' : list ColumnType) :
  keys row ≡ₚ keys row' ->
  title <$> columns ≡ₚ title <$> columns' ->
  verifyColumnsInRsp row columns = verifyColumnsInRsp row' columns'.
Proof.
  intros Hk Hc. unfold verifyColumnsInRsp.
  now rewrite (sort_perm_eq _ _ Hk), (sort_perm_eq _ _ Hc).
Qed.

(** X12.  When the field names of the row and the titles of the columns
    are not empty and contain no comma, [verifyColumnsInRsp] answers [true]
    exactly when the fields of the row are the titles of the columns, each
    as often, in some order. *)
Theorem verifyColumnsInRsp_exact (row : obj) (columns : list ColumnType) :
  Forall plain_title (keys row) ->
  Forall plain_title (title <$> columns) ->
  verifyColumnsInRsp row columns = true <-> keys row ≡ₚ title <$> columns.
Proof.
  intros Hk Hc. unfold verifyColumnsInRsp. rewrite String.eqb_eq. split.
  - intros E. apply sort_eq_perm, join_inj; [| |exact E].
    + unfold sort. now rewrite sort_by_perm.
    + unfold sort. now rewrite sort_by_perm.
  - intros H. now rewrite (sort_perm_eq _ _ H).
Qed.

End VerifyColumns.

Lemma verifyColumnsInRsp_order_witness :
  NewDataApisTest.verifyColumnsInRsp
    [("Phone", VStr "1-541-754-3010"); ("SingleLineText", VStr "Austria")]
    [{| NewDataApisTest.title := "Phone" |};
     {| NewDataApisTest.title := "SingleLineText" |}] =
  NewDataApisTest.verifyColumnsInRsp
    [("SingleLineText", VStr "Austria"); ("Phone", VStr "1-541-754-3010")]
    [{| NewDataApisTest.title := "Phone" |};
     {| NewDataApisTest.title := "SingleLineText" |}].
Proof.
  apply (verifyColumnsInRsp_ignores_order
           [("Phone", VStr "1-541-754-3010"); ("SingleLineText", VStr "Austria")]
           [("SingleLineText", VStr "Austria"); ("Phone", VStr "1-541-754-3010")]).
  - apply Permutation_swap.
  - reflexivity.
Defined.

Lemma verifyColumnsInRsp_exact_witness :
  NewDataApisTest.verifyColumnsInRsp
    [("Phone", VStr "1-541-754-3010"); ("SingleLineText", VStr "Austria")]
    [{| NewDataApisTest.title := "SingleLineText" |};
     {| NewDataApisTest.title := "Phone" |}] = true
  <-> ["Phone"; "SingleLineText"] ≡ₚ ["SingleLineText"; "Phone"].
Proof.
  apply (verifyColumnsInRsp_exact
           [("Phone", VStr "1-541-754-3010"); ("SingleLineText", VStr "Austria")]
           [{| NewDataApisTest.title := "SingleLineText" |};
            {| NewDataApisTest.title := "Phone" |}]).
  - repeat (constructor; [split; [discriminate|reflexivity]|]). constructor.
  - repeat (constructor; [split; [discriminate|reflexivity]|]). constructor.
Defined.

(** Without the condition on commas the helper can take one field for two
    columns. *)
Example verifyColumnsInRsp_comma :
  NewDataApisTest.verifyColumnsInRsp [("a,b", VNull)]
    [{| NewDataApisTest.title := "a" |}; {| NewDataApisTest.title := "b" |}]
  = true.
Proof. reflexivity. Qed.

(** ** The ordering and filter expectations *)

Section Expectations.

Import NewDataApisTest.

Variable structural : Heap -> nat -> nat -> bool.
Variable read : string -> value -> option value.

Lemma items_of_alter_insert (f : list value -> list value) (a : nat)
  (items : list value) (h : Heap) :
  items_of (alter f a (<[a := items]> h)) a = f items.
Proof.
  unfold items_of. now rewrite lookup_alter_eq, lookup_insert_eq.
Qed.

Lemma Array_map_alloc (f : value -> option value) (list a : nat)
  (h h1 : Heap) :
  Array_map f list h = Some (a, h1) ->
  exists mapped, h1 = <[a := mapped]> h.
Proof.
  unfold Array_map, alloc. destruct (h !! list); [|discriminate].
  destruct (mapM f l) as [mapped|]; [|discriminate].
  intros [= <- <-]. now exists mapped.
Qed.

(** X13.  The last expectation of the tests 'List: sort, ascending',
    'List: sort, descending' and 'List: filter, single' never fails: when
    the mapping over the rows of the response has run without throwing, the
    verdict is [true] whatever the rows and their order, because [sort],
    [reverse] and [fill] change the array in place and return it, so that the
    array is compared with itself; by then the array the test holds is the
    sorted one.  When the mapping throws there is no verdict. *)
Theorem ordering_expectations_never_fail (columns : list ColumnType)
  (list : nat) (h : Heap) :
  sort_ascending_expectation structural read columns list h =
    match Array_map
            (by_sortColumn read (find_column "SingleLineText" columns))
            list h with
    | Some (a, h1) => Some (true, (Array_sort a h1).2)
    | None => None
    end
  /\ sort_descending_expectation structural read columns list h =
       match Array_map
               (by_sortColumn read (find_column "SingleLineText" columns))
               list h with
       | Some (a, h1) =>
           Some (true, (Array_reverse a (Array_sort a h1).2).2)
       | None => None
       end
  /\ filter_single_expectation structural read list h =
       match Array_map (read "SingleLineText") list h with
       | Some (a, h1) => Some (true, (Array_fill (VStr "Afghanistan") a h1).2)
       | None => None
       end
  /\ match Array_map
             (by_sortColumn read (find_column "SingleLineText" columns))
             list h with
     | Some (a, h1) =>
         items_of (Array_sort a h1).2 a = sort_by default_le (items_of h1 a)
     | None => True
     end.
Proof.
  unfold sort_ascending_expectation, sort_descending_expectation,
    filter_single_expectation, deep_equal.
  split; [|split; [|split]].
  - destruct (Array_map _ list h) as [[a h1]|]; [|reflexivity].
    cbn. now rewrite bool_decide_eq_true_2.
  - destruct (Array_map _ list h) as [[a h1]|]; [|reflexivity].
    cbn. now rewrite bool_decide_eq_true_2.
  - destruct (Array_map _ list h) as [[a h1]|]; [|reflexivity].
    cbn. now rewrite bool_decide_eq_true_2.
  - destruct (Array_map _ list h) as [[a h1]|] eqn:E; [|exact I].
    apply Array_map_alloc in E as [mapped ->]. cbn [Array_sort snd].
    rewrite items_of_alter_insert. unfold items_of.
    now rewrite lookup_insert_eq.
Qed.

End Expectations.

(** An unsorted response passes the ascending expectation, whatever the
    comparison of distinct arrays says; a response with a [null] row gives
    no verdict.  The read is that of the own properties of a row. *)
Example unsorted_response_passes :
  let read name r :=
    match r with
    | VObj o => Some (get name o)
    | _ => None
    end in
  let columns := [{| NewDataApisTest.title := "SingleLineText" |}] in
  fst <$> NewDataApisTest.sort_ascending_expectation (fun _ _ _ => false)
            read columns 0
            {[ 0%nat := [VObj [("SingleLineText", VStr "b")];
                         VObj [("SingleLineText", VStr "a")]] ]}
  = Some true
  /\ NewDataApisTest.sort_ascending_expectation (fun _ _ _ => false)
       read columns 0
       {[ 0%nat := [VObj [("SingleLineText", VStr "b")]; VNull] ]}
     = None.
Proof. split; vm_compute; reflexivity. Qed.

(** * Properties of the controller *)

Section RouteProperties.

Context {W : Type} `{C : Collaborators W} `{K : Clock W}.

(** X9.  The read route passes no project to the service, so the project
    check never applies: for a table that resolves, of whatever project, a
    request without a view is answered with the row the row lookup
    returns. *)
Theorem read_route_serves_any_project (req : DataTableController.Request) (mid rid : string)
  (w w1 w2 w3 : W) (model : Model) (bm : BaseModelSqlv2 Driver) (row : obj) :
  Model_get mid w = (Ok (Some model), w1) ->
  getBaseModel model None w1 = (Ok bm, w2) ->
  readByPk bm rid false (DataTableController.req_query req) w2 = (Ok (Some row), w3) ->
  DataTableController.dataRead req mid None rid w = (Ok row, w3).
Proof.
  intros Em Eb Er. unfold DataTableController.dataRead, dataRead.
  rewrite (bind_Ok _ _ _ _ _
             (getModelAndView_no_viewId
                {| projectId := None; modelId := mid; viewId := None;
                   rowId := rid; query := DataTableController.req_query req; body := VUndefined;
                   cookie := VUndefined |}
                w w1 model Em (or_introl eq_refl) eq_refl)).
  cbn beta iota. rewrite with_getBaseModel.
  cbn [rowId query].
  rewrite (bind_Ok _ _ _ _ _ Eb), (bind_Ok _ _ _ _ _ Er). reflexivity.
Qed.


End RouteProperties.

Lemma read_route_witness :
  DataTableController.dataRead
    {| DataTableController.req_query := [];
       DataTableController.req_body := VUndefined |}
    "md_text" None "7" Sample.world =
    (Ok (Sample.text_row 7), Sample.world).
Proof.
  apply (read_route_serves_any_project (C := Sample.sample)
           {| DataTableController.req_query := [];
              DataTableController.req_body := VUndefined |}
           "md_text" "7" Sample.world Sample.world Sample.world Sample.world
           Sample.table Sample.baseModel (Sample.text_row 7));
    vm_compute; reflexivity.
Defined.


(** * More on the row operations *)

Section InsertAnswers.

Context {W : Type} `{C : Collaborators W}.

(** X14.  An insert answers with what the store's insert answered: for an
    array body, empty or not, the echoes of one bulk insert of its records,
    in their order; for any other body, the row of one single insert of the
    body, made outside a transaction. *)
Theorem insert_answers_the_store (p : Param) (w w' : W) (r : value) :
  dataInsert p w = (Ok r, w') ->
  exists model view w1 bm w2,
    getModelAndView p w = (Ok (model, view), w1)
    /\ getBaseModel model view w1 = (Ok bm, w2)
    /\ match body p with
       | VArr records =>
           exists res,
             bulkInsert bm records (cookie p) w2 = (Ok res, w')
             /\ r = VArr (VObj <$> res)
       | record =>
           exists row,
             insert bm record VNull (cookie p) w2 = (Ok row, w')
             /\ r = VObj row
       end.
Proof.
  unfold dataInsert. intros H.
  apply bind_Ok_inv in H as ([model view] & w1 & Eg & H).
  rewrite with_getBaseModel in H.
  apply bind_Ok_inv in H as (bm & w2 & Eb & H).
  exists model, view, w1, bm, w2. repeat (split; [assumption|]).
  destruct (body p);
    apply bind_Ok_inv in H as (res & w3 & Er & H);
    inversion H; subst; now exists res.
Qed.

End InsertAnswers.

Lemma insert_answers_witness :
  exists model view w1 bm w2,
    getModelAndView (Sample.request None "" [] (VArr [])) Sample.world =
      (Ok (model, view), w1)
    /\ getBaseModel model view w1 = (Ok bm, w2)
    /\ exists res,
         bulkInsert bm [] VNull w2 = (Ok res, Sample.world)
         /\ VArr [] = VArr (VObj <$> res).
Proof.
  apply (insert_answers_the_store (C := Sample.sample)
           (Sample.request None "" [] (VArr [])) Sample.world Sample.world
           (VArr [])).
  vm_compute. reflexivity.
Defined.
